(** * ADGM corporate agent: filename classifier, checklist and report

    A shallow embedding of [app.py]: the function [simulate_llm_analysis]
    and the batch operation [analyze_documents], with the world they read
    and write and the exceptions they raise.

    Modelling conventions.
    - A Python [str] is a [string] whose characters are the code points
      U+0000 to U+00FF; [lower] and [strip] are Python's [str.lower] and
      [str.strip] on that range.
    - Path strings are handled as [posixpath] does ([basename], [dirname],
      [join]).  Which file a path string denotes is decided by the world
      ([resolve]: working directory, links and the like), so two strings
      may denote one file.
    - A document has a body and a table of styles.  Adding a paragraph
      raises [ValueError] on text that XML cannot carry, and [KeyError]
      (or [ValueError]) when the style asked for is not a paragraph style
      of the document, as python-docx does.
    - The world holds the files, the directories, what the operating
      system refuses ([denied]: permissions, a full disk, a name that is
      too long), the styles of the default template of python-docx, and
      the log of the progress calls, where the fraction [i / total_files]
      is kept as numerator and denominator.  [time.sleep] has no effect on
      any value and is left out. *)

From Stdlib Require Import Ascii DecimalString.
From stdpp Require Import gmap strings list fin_maps.

(** ** Strings *)

Module Str.

Definition lower_char (c : ascii) : ascii :=
  let n := nat_of_ascii c in
  if (65 <=? n) && (n <=? 90) then ascii_of_nat (n + 32)
  else if (192 <=? n) && (n <=? 222) && negb (n =? 215)
       then ascii_of_nat (n + 32)
  else c.

(** [s.lower()] *)
Fixpoint lower (s : string) : string :=
  match s with
  | EmptyString => EmptyString
  | String c r => String (lower_char c) (lower r)
  end.

(** [s.startswith(p)] *)
Fixpoint startswith (p s : string) : bool :=
  match p, s with
  | EmptyString, _ => true
  | String _ _, EmptyString => false
  | String a p', String b s' => Ascii.eqb a b && startswith p' s'
  end.

(** [p in s] *)
Fixpoint contains (p s : string) : bool :=
  startswith p s ||
  match s with
  | EmptyString => false
  | String _ s' => contains p s'
  end.

(** [s.split(sep)[0]] for a one-character separator *)
Fixpoint split_head (sep : ascii) (s : string) : string :=
  match s with
  | EmptyString => EmptyString
  | String c r => if Ascii.eqb c sep then EmptyString
                  else String c (split_head sep r)
  end.

(** [str.isspace] on one character *)
Definition is_space (c : ascii) : bool :=
  let n := nat_of_ascii c in
  (9 <=? n) && (n <=? 13) || (28 <=? n) && (n <=? 32)
  || (n =? 133) || (n =? 160).

Fixpoint lstrip (s : string) : string :=
  match s with
  | EmptyString => EmptyString
  | String c r => if is_space c then lstrip r else s
  end.

Fixpoint rstrip (s : string) : string :=
  match s with
  | EmptyString => EmptyString
  | String c r =>
      match rstrip r with
      | EmptyString => if is_space c then EmptyString else String c EmptyString
      | r' => String c r'
      end
  end.

(** [s.strip()] *)
Definition strip (s : string) : string := rstrip (lstrip s).

(** [str(n)] for a non-negative integer *)
Definition of_nat (n : nat) : string := NilZero.string_of_uint (Nat.to_uint n).

(** The relation behind [contains]. *)
Definition Substring (p s : string) : Prop :=
  ∃ a b, s = a +:+ p +:+ b.

(** [p] occurs in [s] up to the case of letters. *)
Definition CaseInsensitiveSubstring (p s : string) : Prop :=
  ∃ q, Substring q s ∧ lower q = lower p.

End Str.

(** ** Paths *)

Module Path.

Definition sep : ascii := "/"%char.

Fixpoint has_sep (p : string) : bool :=
  match p with
  | EmptyString => false
  | String c r => Ascii.eqb c sep || has_sep r
  end.

(** [os.path.basename(p)]: what follows the last separator. *)
Fixpoint basename (p : string) : string :=
  match p with
  | EmptyString => EmptyString
  | String c r =>
      if has_sep r then basename r
      else if Ascii.eqb c sep then r else p
  end.

Fixpoint ends_with_sep (p : string) : bool :=
  match p with
  | EmptyString => false
  | String c EmptyString => Ascii.eqb c sep
  | String _ r => ends_with_sep r
  end.

(** [p[:p.rfind('/') + 1]] *)
Fixpoint head_part (p : string) : string :=
  match p with
  | EmptyString => EmptyString
  | String c r =>
      if has_sep r then String c (head_part r)
      else if Ascii.eqb c sep then String c EmptyString else EmptyString
  end.

Fixpoint all_sep (p : string) : bool :=
  match p with
  | EmptyString => true
  | String c r => Ascii.eqb c sep && all_sep r
  end.

(** [p.rstrip('/')] *)
Fixpoint rstrip_sep (p : string) : string :=
  match p with
  | EmptyString => EmptyString
  | String c r =>
      match rstrip_sep r with
      | EmptyString => if Ascii.eqb c sep then EmptyString else String c EmptyString
      | r' => String c r'
      end
  end.

(** [os.path.dirname(p)] *)
Definition dirname (p : string) : string :=
  let head := head_part p in
  if all_sep head then head else rstrip_sep head.

(** [os.path.join(a, b)] *)
Definition join (a b : string) : string :=
  if Str.startswith (String sep EmptyString) b then b
  else if String.eqb a EmptyString || ends_with_sep a then a +:+ b
  else a +:+ String sep b.

End Path.

(** ** The classifier *)

Record Issue := mkIssue {
  section : string;
  issue : string;
  severity : string;
  suggestion : string
}.

Record DocumentAnalysis := mkAnalysis {
  doc_type : string;
  issues : list Issue
}.

(** [analysis["doc_type"] = t] and [analysis["issues"].append(i)] *)
Definition set_doc_type (t : string) (a : DocumentAnalysis) : DocumentAnalysis :=
  {| doc_type := t; issues := issues a |}.

Definition append_issue (i : Issue) (a : DocumentAnalysis) : DocumentAnalysis :=
  {| doc_type := doc_type a; issues := issues a ++ [i] |}.

Definition jurisdiction_issue : Issue :=
  {| section := "Jurisdiction Clause (Simulated)";
     issue := "Jurisdiction clause does not explicitly specify 'ADGM Courts'.";
     severity := "High";
     suggestion := "Update the jurisdiction clause to 'ADGM Courts' to comply with ADGM regulations." |}.

Definition signatory_issue : Issue :=
  {| section := "Signatory Section (Simulated)";
     issue := "Missing date on the signatory page.";
     severity := "Medium";
     suggestion := "Ensure all signatory fields, including the date, are properly filled out." |}.

Definition general_issue : Issue :=
  {| section := "General Compliance (Simulated)";
     issue := "Document format does not appear to match standard ADGM templates.";
     severity := "Low";
     suggestion := "Cross-reference with the official ADGM templates to ensure full compliance and formatting." |}.

Definition simulate_llm_analysis (doc_name : string) : DocumentAnalysis :=
  let analysis := {| doc_type := "Unknown"; issues := [] |} in
  let lower_doc_name := Str.lower doc_name in
  if Str.contains "articles" lower_doc_name || Str.contains "aoa" lower_doc_name then
    append_issue jurisdiction_issue (set_doc_type "Articles of Association" analysis)
  else if Str.contains "board" lower_doc_name && Str.contains "resolution" lower_doc_name then
    append_issue signatory_issue (set_doc_type "Board Resolution" analysis)
  else if Str.contains "memo" lower_doc_name || Str.contains "moa" lower_doc_name then
    set_doc_type "Memorandum of Association" analysis
  else if Str.contains "ubo" lower_doc_name then
    set_doc_type "UBO Declaration Form" analysis
  else if Str.contains "register" lower_doc_name then
    set_doc_type "Register of Members and Directors" analysis
  else
    append_issue general_issue (set_doc_type "General Document" analysis).

(** The document types and severities of the data model, with the strings
    the program uses for them. *)
Inductive DocType :=
  | ArticlesOfAssociation | BoardResolution | MemorandumOfAssociation
  | UBODeclaration | RegisterOfMembers | GeneralDocument.

Definition doc_type_label (t : DocType) : string :=
  match t with
  | ArticlesOfAssociation => "Articles of Association"
  | BoardResolution => "Board Resolution"
  | MemorandumOfAssociation => "Memorandum of Association"
  | UBODeclaration => "UBO Declaration Form"
  | RegisterOfMembers => "Register of Members and Directors"
  | GeneralDocument => "General Document"
  end.

Inductive Severity := Low | Medium | High.

Definition severity_label (s : Severity) : string :=
  match s with Low => "Low" | Medium => "Medium" | High => "High" end.

(** ** Exceptions *)

(** What the program can raise: its own [gr.Error], the [KeyError] and
    [ValueError] of the document library, and the [OSError] of the
    operating system (which stands for its subclasses too). *)
Inductive error :=
  | GrError (message : string)
  | KeyError
  | ValueError
  | OSError.

Inductive outcome (A : Type) :=
  | Returns (a : A)
  | Raises (e : error).
Arguments Returns {A} a.
Arguments Raises {A} e.

Global Instance outcome_ret : MRet outcome := @Returns.

Global Instance outcome_bind : MBind outcome :=
  fun A B k m => match m with Returns a => k a | Raises e => Raises e end.

(** ** Documents *)

(** The body of a word-processor document: paragraphs with the style they
    were given by name, if any, and section breaks (the break that
    [add_section] appends to end the section before it; it carries no
    text). *)
Inductive block :=
  | Paragraph (text : string) (style : option string)
  | SectionBreak.

Inductive style_type := ParagraphStyle | CharacterStyle | TableStyle | ListStyle.

(** A document: its body, and what [doc.styles[key]] finds for a key. *)
Record document := mkDocument {
  body : list block;
  styles : gmap string style_type
}.

(** [c in s] for one character. *)
Fixpoint has_char (c : ascii) (s : string) : bool :=
  match s with
  | EmptyString => false
  | String c' r => Ascii.eqb c' c || has_char c r
  end.

(** The characters an XML text node accepts: tab, line feed, carriage
    return, and everything from the space on.  (Tabs and line ends become
    elements of their own in a run; the other control characters make the
    XML library raise [ValueError].) *)
Definition xml_char (c : ascii) : bool :=
  let n := nat_of_ascii c in
  (32 <=? n) || (n =? 9) || (n =? 10) || (n =? 13).

Fixpoint xml_text (s : string) : bool :=
  match s with
  | EmptyString => true
  | String c r => xml_char c && xml_text r
  end.

Definition append_block (b : block) (doc : document) : document :=
  {| body := body doc ++ [b]; styles := styles doc |}.

(** [doc.add_paragraph(text, style)]: the run with the text is made first,
    then the style is looked up by name. *)
Definition add_paragraph (text : string) (style : option string) (doc : document)
    : outcome document :=
  if xml_text text then
    match style with
    | None => Returns (append_block (Paragraph text None) doc)
    | Some style_name =>
        match styles doc !! style_name with
        | None => Raises KeyError
        | Some ParagraphStyle =>
            Returns (append_block (Paragraph text (Some style_name)) doc)
        | Some _ => Raises ValueError
        end
    end
  else Raises ValueError.

(** [doc.add_heading(text, level)] *)
Definition add_heading (text : string) (level : nat) (doc : document)
    : outcome document :=
  if level <=? 9 then
    add_paragraph text
      (Some (match level with 0 => "Title" | _ => "Heading " +:+ Str.of_nat level end))
      doc
  else Raises ValueError.

(** [doc.add_section()] *)
Definition add_section (doc : document) : document := append_block SectionBreak doc.

(** ** The world *)

(** What a file holds as far as [docx.Document] is concerned: a document,
    or something that does not open as one. *)
Inductive file_content :=
  | Docx (d : document)
  | NotDocx.

Record progress_event := Progress {
  numerator : nat;
  denominator : nat;
  desc : string
}.

Record world := mkWorld {
  fs : gmap string file_content;
  dirs : gset string;
  resolve : string → string;
  denied : string → bool;
  template_styles : gmap string style_type;
  progress_log : list progress_event
}.

Definition with_fs (m : gmap string file_content) (w : world) : world :=
  {| fs := m; dirs := dirs w; resolve := resolve w; denied := denied w;
     template_styles := template_styles w; progress_log := progress_log w |}.

Definition with_dirs (s : gset string) (w : world) : world :=
  {| fs := fs w; dirs := s; resolve := resolve w; denied := denied w;
     template_styles := template_styles w; progress_log := progress_log w |}.

Definition with_progress_log (l : list progress_event) (w : world) : world :=
  {| fs := fs w; dirs := dirs w; resolve := resolve w; denied := denied w;
     template_styles := template_styles w; progress_log := l |}.

(** Computations that read and change the world and may raise. *)
Definition M (A : Type) : Type := world → outcome A * world.

Definition ret {A : Type} (a : A) : M A := fun w => (Returns a, w).

Definition raise {A : Type} (e : error) : M A := fun w => (Raises e, w).

Definition bind {A B : Type} (m : M A) (k : A → M B) : M B :=
  fun w =>
    match m w with
    | (Returns a, w') => k a w'
    | (Raises e, w') => (Raises e, w')
    end.

Definition lift {A : Type} (o : outcome A) : M A := fun w => (o, w).

Notation "'let*' x ':=' m 'in' k" := (bind m (fun x => k))
  (at level 10, x name, m at level 100, k at level 200).

Definition NUL : ascii := "000"%char.

(** [docx.Document(path)]: [None] stands for the exception, whatever it is.
    A path with a NUL character never opens. *)
Definition open_document (w : world) (path : string) : option document :=
  if has_char NUL path then None
  else match fs w !! resolve w path with
       | Some (Docx d) => Some d
       | _ => None
       end.

(** [docx.Document()]: the default template, with an empty body. *)
Definition blank_document (w : world) : document :=
  {| body := []; styles := template_styles w |}.

(** [os.path.exists(path)] *)
Definition path_exists (path : string) (w : world) : bool :=
  bool_decide (resolve w path ∈ dirs w)
  || bool_decide (is_Some (fs w !! resolve w path)).

(** [os.makedirs(path)], called on a path that does not exist. *)
Definition makedirs (path : string) : M unit :=
  fun w =>
    if denied w path then (Raises OSError, w)
    else (Returns tt, with_dirs ({[resolve w path]} ∪ dirs w) w).

(** [doc.save(path)]: the directory of the path must be a directory, the
    path itself must not be one, and the operating system must accept the
    write. *)
Definition save (doc : document) (path : string) : M unit :=
  fun w =>
    let parent :=
      match Path.dirname path with
      | EmptyString => "."
      | d => d
      end in
    if has_char NUL path then (Raises ValueError, w)
    else if negb (bool_decide (resolve w parent ∈ dirs w)) then (Raises OSError, w)
    else if bool_decide (resolve w path ∈ dirs w) then (Raises OSError, w)
    else if denied w path then (Raises OSError, w)
    else (Returns tt, with_fs (<[resolve w path := Docx doc]> (fs w)) w).

(** [progress(num / den, desc=d)] *)
Definition progress (num den : nat) (d : string) : M unit :=
  fun w => (Returns tt, with_progress_log (progress_log w ++ [Progress num den d]) w).

(** ** The batch operation *)

(** An uploaded file: the handle's [name] attribute is its path. *)
Record file_handle := mkFile { name : string }.

(** An issue of the report: [{"document": doc_name, **issue}]. *)
Record ReportIssue := mkReportIssue {
  document_name : string;
  r_section : string;
  r_issue : string;
  r_severity : string;
  r_suggestion : string
}.

Definition tag_issue (doc_name : string) (i : Issue) : ReportIssue :=
  {| document_name := doc_name; r_section := section i; r_issue := issue i;
     r_severity := severity i; r_suggestion := suggestion i |}.

Record BatchReport := mkReport {
  process : string;
  documents_uploaded : nat;
  required_documents : nat;
  missing_document : string;
  issues_found : list ReportIssue
}.

(** The checklist is a dict: insertion-ordered, with distinct keys. *)
Definition checklist := list (string * bool).

Fixpoint dict_set (k : string) (v : bool) (d : checklist) : checklist :=
  match d with
  | [] => [(k, v)]
  | (k', v') :: r => if String.eqb k k' then (k, v) :: r else (k', v') :: dict_set k v r
  end.

Fixpoint dict_get (k : string) (d : checklist) : option bool :=
  match d with
  | [] => None
  | (k', v') :: r => if String.eqb k k' then Some v' else dict_get k r
  end.

Definition dict_keys (d : checklist) : list string := map fst d.

Definition initial_checklist : checklist :=
  [ ("Articles of Association (AoA)", false);
    ("Memorandum of Association (MoA/MoU)", false);
    ("Board Resolution Templates", false);
    ("Shareholder Resolution Templates", false);
    ("Incorporation Application Form", false);
    ("UBO Declaration Form", false);
    ("Register of Members and Directors", false) ].

Definition output_dir : string := "reviewed_docs".

(** [key.split('(')[0].strip().lower()] *)
Definition simplified_key (key : string) : string :=
  Str.lower (Str.strip (Str.split_head "("%char key)).

(** The test [simplified_key in doc_name.lower()] and the body of the loop
    over the keys (lines 107-109). *)
Definition key_matches (doc_name key : string) : bool :=
  Str.contains (simplified_key key) (Str.lower doc_name).

Definition mark_key (doc_name : string) (d : checklist) (key : string) : checklist :=
  if key_matches doc_name key then dict_set key true d else d.

(** The loop over the checklist keys for one file name (lines 106-109). *)
Definition update_checklist (doc_name : string) (d : checklist) : checklist :=
  fold_left (mark_key doc_name) (dict_keys d) d.

(** The body of the [except] branch (lines 102-104), on a blank document. *)
Definition placeholder_document (blank : document) (doc_name : string)
    : outcome document :=
  doc ← add_paragraph ("Original content of " +:+ doc_name +:+ " would be here.")
          None blank;
  add_paragraph
    "(Could not fully parse original, but analysis is proceeding based on filename)"
    None doc.

Definition comment_text (i : Issue) : string :=
  "COMMENT: In section '" +:+ section i +:+ "', an issue was found: '" +:+ issue i
  +:+ "' (Severity: " +:+ severity i +:+ ").".

Definition suggestion_text (i : Issue) : string :=
  "SUGGESTION: " +:+ suggestion i.

(** The body of the inner loop over the issues (lines 121-126). *)
Definition add_comment (doc : document) (i : Issue) : outcome document :=
  doc ← add_paragraph (comment_text i) (Some "Intense Quote") doc;
  doc ← add_paragraph (suggestion_text i) None doc;
  add_paragraph "" None doc.

Fixpoint add_comments (l : list Issue) (doc : document) : outcome document :=
  match l with
  | [] => Returns doc
  | i :: rest => doc ← add_comment doc i; add_comments rest doc
  end.

(** Lines 118-126. *)
Definition insert_comments (l : list Issue) (doc : document) : outcome document :=
  doc ← add_heading "--- AI Analysis & Comments ---" 2 (add_section doc);
  add_comments l doc.

Record loop_state := mkState {
  incorporation_checklist : checklist;
  all_issues : list ReportIssue;
  reviewed_file_paths : list string
}.

(** [os.path.join(output_dir, f"reviewed_{doc_name}")] *)
Definition reviewed_path (doc_name : string) : string :=
  Path.join output_dir ("reviewed_" +:+ doc_name).

(** The [try] / [except] of lines 97-104: an exception of [docx.Document]
    is caught, one raised inside the handler is not. *)
Definition load_document (file : file_handle) : M document :=
  fun w =>
    match open_document w (name file) with
    | Some d => (Returns d, w)
    | None =>
        (placeholder_document (blank_document w) (Path.basename (name file)), w)
    end.

(** Lines 114-126: the issues are added to the report, and the comments to
    the document. *)
Definition annotate (doc_name : string) (analysis_result : DocumentAnalysis)
    (found : list ReportIssue) (doc : document)
    : outcome (list ReportIssue * document) :=
  match issues analysis_result with
  | [] => Returns (found, doc)
  | l => doc ← insert_comments l doc;
         Returns (found ++ map (tag_issue doc_name) l, doc)
  end.

(** One iteration of the loop over the files (lines 92-132). *)
Definition process_file (total_files i : nat) (file : file_handle)
    (st : loop_state) : M loop_state :=
  let* _ := progress i total_files
              ("Analyzing " +:+ Path.basename (name file) +:+ "...") in
  let doc_name := Path.basename (name file) in
  let* doc := load_document file in
  let chk := update_checklist doc_name (incorporation_checklist st) in
  let analysis_result := simulate_llm_analysis doc_name in
  let* annotated := lift (annotate doc_name analysis_result (all_issues st) doc) in
  let reviewed_file_path := reviewed_path doc_name in
  let* _ := save (snd annotated) reviewed_file_path in
  ret {| incorporation_checklist := chk;
         all_issues := fst annotated;
         reviewed_file_paths := reviewed_file_paths st ++ [reviewed_file_path] |}.

(** [for i, file in enumerate(files)], from index [i]. *)
Fixpoint for_each_file (total_files i : nat) (files : list file_handle)
    (st : loop_state) : M loop_state :=
  match files with
  | [] => ret st
  | file :: rest =>
      let* st := process_file total_files i file st in
      for_each_file total_files (S i) rest st
  end.

Definition initial_state : loop_state :=
  {| incorporation_checklist := initial_checklist;
     all_issues := [];
     reviewed_file_paths := [] |}.

(** Lines 86-88. *)
Definition ensure_output_dir : M unit :=
  fun w => if path_exists output_dir w then (Returns tt, w) else makedirs output_dir w.

(** Lines 72-132: the state of the batch at the end of the loop. *)
Definition run_loop (files : list file_handle) : M loop_state :=
  let* _ := ensure_output_dir in
  for_each_file (length files) 0 files initial_state.

Definition newline : string := String "010"%char EmptyString.

(** [[doc for doc, found in checklist.items() if not found]] *)
Definition missing_docs (d : checklist) : list string :=
  map fst (List.filter (fun kv => negb (snd kv)) d).

Definition checklist_summary (uploaded : nat) (d : checklist) : string :=
  "It appears you're trying to incorporate a company in ADGM. You have uploaded "
  +:+ Str.of_nat uploaded +:+ " out of " +:+ Str.of_nat (length d)
  +:+ " required documents."
  +:+ match missing_docs d with
      | first :: _ =>
          newline +:+ newline +:+ "The missing document appears to be: '" +:+ first +:+ "'."
      | [] =>
          newline +:+ newline +:+ "All required documents for incorporation appear to be present."
      end.

Definition build_report (uploaded : nat) (st : loop_state) : BatchReport :=
  {| process := "Company Incorporation";
     documents_uploaded := uploaded;
     required_documents := length (incorporation_checklist st);
     missing_document :=
       match missing_docs (incorporation_checklist st) with
       | first :: _ => first
       | [] => "None"
       end;
     issues_found := all_issues st |}.

Definition analyze_documents (files : list file_handle)
    : M (string * BatchReport * list string) :=
  match files with
  | [] => raise (GrError "Please upload at least one document.")
  | _ =>
      let* st := run_loop files in
      let* _ := progress 1 1 "Generating final report..." in
      ret (checklist_summary (length files) (incorporation_checklist st),
           build_report (length files) st,
           reviewed_file_paths st)
  end.

(** ** Notions used to state the properties *)

(** The name the program works with: the base name of the handle's path. *)
Definition doc_name_of (file : file_handle) : string := Path.basename (name file).

(** The seven required categories in their declared order. *)
Definition required_categories : list string :=
  [ "Articles of Association (AoA)";
    "Memorandum of Association (MoA/MoU)";
    "Board Resolution Templates";
    "Shareholder Resolution Templates";
    "Incorporation Application Form";
    "UBO Declaration Form";
    "Register of Members and Directors" ].

(** Each category with its simplified key written out: the text before the
    parenthesis, without the space that precedes it, in lower case. *)
Definition simplified_keys : list (string * string) :=
  [ ("Articles of Association (AoA)", "articles of association");
    ("Memorandum of Association (MoA/MoU)", "memorandum of association");
    ("Board Resolution Templates", "board resolution templates");
    ("Shareholder Resolution Templates", "shareholder resolution templates");
    ("Incorporation Application Form", "incorporation application form");
    ("UBO Declaration Form", "ubo declaration form");
    ("Register of Members and Directors", "register of members and directors") ].

(** A category is satisfied by a batch of names when its simplified key
    occurs in one of them, letter case aside. *)
Definition Satisfied (category : string) (names : list string) : Prop :=
  ∃ nm, nm ∈ names ∧ Str.CaseInsensitiveSubstring (simplified_key category) nm.

Definition satisfied (category : string) (names : list string) : bool :=
  existsb (fun nm => Str.contains (simplified_key category) (Str.lower nm)) names.

(** The first category of a list that the names leave unsatisfied, or the
    sentinel. *)
Fixpoint first_unsatisfied (categories : list string) (names : list string) : string :=
  match categories with
  | [] => "None"
  | c :: rest => if satisfied c names then first_unsatisfied rest names else c
  end.

(** Raising the flags of the categories selected by [P]; no flag is lowered. *)
Definition mark (P : string → bool) (d : checklist) : checklist :=
  map (fun kv => (fst kv, snd kv || P (fst kv))) d.

(** The issues one file contributes to the report. *)
Definition issues_of_file (file : file_handle) : list ReportIssue :=
  map (tag_issue (doc_name_of file)) (issues (simulate_llm_analysis (doc_name_of file))).

(** The loop state after one more file. *)
Definition next_state (st : loop_state) (file : file_handle) : loop_state :=
  {| incorporation_checklist :=
       update_checklist (doc_name_of file) (incorporation_checklist st);
     all_issues := all_issues st ++ issues_of_file file;
     reviewed_file_paths :=
       reviewed_file_paths st ++ [reviewed_path (doc_name_of file)] |}.

(** A document with further blocks after its body. *)
Definition extend (doc : document) (blocks : list block) : document :=
  {| body := body doc ++ blocks; styles := styles doc |}.

(** The two paragraphs that stand for a document that did not open. *)
Definition placeholder_body (doc_name : string) : list block :=
  [ Paragraph ("Original content of " +:+ doc_name +:+ " would be here.") None;
    Paragraph "(Could not fully parse original, but analysis is proceeding based on filename)" None ].

(** The three paragraphs written for one issue. *)
Definition issue_lines (i : Issue) : list block :=
  [ Paragraph ("COMMENT: In section '" +:+ section i +:+ "', an issue was found: '"
               +:+ issue i +:+ "' (Severity: " +:+ severity i +:+ ").")
              (Some "Intense Quote");
    Paragraph ("SUGGESTION: " +:+ suggestion i) None;
    Paragraph "" None ].

(** The appended section: nothing without issues, else a new section that
    opens with the heading and holds the lines of each issue. *)
Definition comment_section (l : list Issue) : list block :=
  match l with
  | [] => []
  | _ => SectionBreak
         :: Paragraph "--- AI Analysis & Comments ---" (Some "Heading 2")
         :: flat_map issue_lines l
  end.

(** The two styles the comments use are paragraph styles of the document. *)
Definition comment_styles (doc : document) : Prop :=
  styles doc !! "Heading 2" = Some ParagraphStyle ∧
  styles doc !! "Intense Quote" = Some ParagraphStyle.

(** The document the comments are added to: the opened one, or the blank
    one with the placeholder. *)
Definition base_document (w : world) (file : file_handle) : document :=
  match open_document w (name file) with
  | Some d => d
  | None => extend (blank_document w) (placeholder_body (doc_name_of file))
  end.

(** The reviewed document of a file, given the world at the time the file
    is opened. *)
Definition reviewed_document (w : world) (file : file_handle) : document :=
  extend (base_document w file)
    (comment_section (issues (simulate_llm_analysis (doc_name_of file)))).

(** The file that the output path of a name denotes. *)
Definition target (w : world) (doc_name : string) : string :=
  resolve w (reviewed_path doc_name).

(** The progress call made for the file at index [i] (line 92). *)
Definition analyzing_event (total i : nat) (file : file_handle) : progress_event :=
  Progress i total ("Analyzing " +:+ Path.basename (name file) +:+ "...").

(** The world after one more file has been processed without exception. *)
Definition next_world (total i : nat) (w : world) (file : file_handle) : world :=
  with_fs (<[target w (doc_name_of file) := Docx (reviewed_document w file)]> (fs w))
    (with_progress_log (progress_log w ++ [analyzing_event total i file]) w).

(** The state of a batch of [total] files once the files [done] have been
    processed. *)
Definition state_after (total : nat) (done : list file_handle) : M loop_state :=
  let* _ := ensure_output_dir in
  for_each_file total 0 done initial_state.

(** What makes one iteration go through: the document side (when comments
    are added, the document has their styles; a name that stands in the
    placeholder is XML text) and the side of the operating system. *)
Definition document_ready (w : world) (file : file_handle) : Prop :=
  match open_document w (name file) with
  | Some d => issues (simulate_llm_analysis (doc_name_of file)) = [] ∨ comment_styles d
  | None =>
      xml_text (doc_name_of file) = true ∧
      (issues (simulate_llm_analysis (doc_name_of file)) = []
       ∨ comment_styles (blank_document w))
  end.

Definition save_ready (w : world) (file : file_handle) : Prop :=
  has_char NUL (doc_name_of file) = false ∧
  resolve w output_dir ∈ dirs w ∧
  (target w (doc_name_of file) ∉ dirs w) ∧
  denied w (reviewed_path (doc_name_of file)) = false.

(** A world and a batch for which the whole run goes through: the template
    and every stored document have the comment styles, the names are XML
    text, the output directory is or can be made a directory, and every
    output path can be written. *)
Definition ready (files : list file_handle) (w : world) : Prop :=
  comment_styles (blank_document w) ∧
  (∀ id d, fs w !! id = Some (Docx d) → comment_styles d) ∧
  (if path_exists output_dir w
   then resolve w output_dir ∈ dirs w
   else denied w output_dir = false) ∧
  ∀ f, f ∈ files →
       xml_text (doc_name_of f) = true ∧
       (target w (doc_name_of f) ∉ dirs w) ∧
       target w (doc_name_of f) ≠ resolve w output_dir ∧
       denied w (reviewed_path (doc_name_of f)) = false.

(** Output paths that are fresh: pairwise distinct and absent from the
    store the run starts from. *)
Definition fresh_paths (w : world) (paths : list string) : Prop :=
  NoDup paths ∧ ∀ p, p ∈ paths → fs w !! resolve w p = None.

(** The document types for which the classifier attaches no issue. *)
Definition silent_type (t : string) : bool :=
  String.eqb t "Memorandum of Association"
  || String.eqb t "UBO Declaration Form"
  || String.eqb t "Register of Members and Directors".

(** The three canned issues. *)
Definition canned_issues : list Issue :=
  [ jurisdiction_issue; signatory_issue; general_issue ].

(** ** Sample worlds and batches *)

(** The process runs in [/app]: a relative path denotes the file under it. *)
Definition under_app (path : string) : string :=
  if Str.startswith "/" path then path else "/app/" +:+ path.

Definition word_styles : gmap string style_type :=
  {[ "Normal" := ParagraphStyle;
     "Title" := ParagraphStyle;
     "Heading 2" := ParagraphStyle;
     "Intense Quote" := ParagraphStyle;
     "Default Paragraph Font" := CharacterStyle ]}.

Definition empty_world : world :=
  {| fs := ∅; dirs := ∅; resolve := under_app; denied := fun _ => false;
     template_styles := word_styles; progress_log := [] |}.

Definition sample_document : document :=
  {| body := [ Paragraph "ARTICLES OF ASSOCIATION" (Some "Title");
               Paragraph "1. The name of the company is Acme Ltd." None ];
     styles := word_styles |}.

(** A document without the styles "Heading 2" and "Intense Quote". *)
Definition plain_document : document :=
  {| body := [ Paragraph "Articles of Association of Acme Ltd." None ];
     styles := {[ "Normal" := ParagraphStyle ]} |}.

Definition sample_world : world :=
  with_fs {[ "/uploads/1/AoA_Acme.docx" := Docx sample_document;
             "/uploads/2/Board_Resolution_Acme.docx" := NotDocx ]} empty_world.

Definition plain_world : world :=
  with_fs {[ "/uploads/1/AoA_Acme.docx" := Docx plain_document ]} empty_world.

Definition scenario_files : list file_handle :=
  [ mkFile "/uploads/1/AoA_Acme.docx"; mkFile "/uploads/2/Board_Resolution_Acme.docx" ].

Definition same_name_files : list file_handle :=
  [ mkFile "/uploads/1/notes.docx"; mkFile "/uploads/2/notes.docx" ].

(** A batch whose second input is the file the first output path denotes. *)
Definition overlapping_files : list file_handle :=
  [ mkFile "/uploads/1/notes.docx"; mkFile "/app/reviewed_docs/reviewed_notes.docx" ].

Definition overlapping_world : world :=
  with_dirs {[ "/app/reviewed_docs" ]}
    (with_fs {[ "/uploads/1/notes.docx" := Docx sample_document;
                "/app/reviewed_docs/reviewed_notes.docx" := Docx sample_document ]}
       empty_world).

(** A file that does not open and whose name holds the control character
    U+001F. *)
Definition control_character_file : file_handle :=
  mkFile ("/uploads/5/ubo" +:+ String "031"%char ".docx").

(** A reviewed document of an earlier run, uploaded again. *)
Definition reviewed_again_file : file_handle :=
  mkFile "/uploads/9/reviewed_AoA_Acme.docx".

Definition reviewed_again_world : world :=
  with_dirs {[ "/app/reviewed_docs" ]}
    (with_fs {[ "/uploads/9/reviewed_AoA_Acme.docx"
                := Docx (extend sample_document (comment_section [jurisdiction_issue])) ]}
       empty_world).

(** ** Notions used in the proofs *)

(** The outcome of lines 118-126 on a document, for issues whose texts are
    XML text: the styles decide. *)
Definition comments_outcome (doc : document) (l : list Issue) : outcome document :=
  match l with
  | [] => Returns doc
  | _ =>
      match styles doc !! "Heading 2" with
      | None => Raises KeyError
      | Some ParagraphStyle =>
          match styles doc !! "Intense Quote" with
          | None => Raises KeyError
          | Some ParagraphStyle => Returns (extend doc (comment_section l))
          | Some _ => Raises ValueError
          end
      | Some _ => Raises ValueError
      end
  end.

Definition issue_is_xml (i : Issue) : bool :=
  xml_text (comment_text i) && xml_text (suggestion_text i).

(** The state and the world after the files of a list have been processed
    without exception, from index [i]. *)
Definition state_of (files : list file_handle) (st : loop_state) : loop_state :=
  fold_left next_state files st.

Fixpoint loop_world (total i : nat) (files : list file_handle) (w : world) : world :=
  match files with
  | [] => w
  | f :: rest => loop_world total (S i) rest (next_world total i w f)
  end.

(** The world after lines 86-88 have run without exception. *)
Definition entered (w : world) : world :=
  if path_exists output_dir w then w
  else with_dirs ({[resolve w output_dir]} ∪ dirs w) w.

(** The first category of a list whose flag is not set in a checklist, or
    the sentinel. *)
Fixpoint first_unflagged (categories : list string) (d : checklist) : string :=
  match categories with
  | [] => "None"
  | c :: rest =>
      match dict_get c d with
      | Some true => first_unflagged rest d
      | _ => c
      end
  end.

(** A batch with one file whose name holds a category in full. *)
Definition articles_file : file_handle :=
  mkFile "/uploads/4/Articles of Association - Acme.docx".

(** A stored file that, if it is a document, has the two comment styles. *)
Definition is_paragraph_style (s : option style_type) : bool :=
  match s with
  | Some ParagraphStyle => true
  | _ => false
  end.

Definition styled (c : file_content) : bool :=
  match c with
  | Docx d =>
      is_paragraph_style (styles d !! "Heading 2")
      && is_paragraph_style (styles d !! "Intense Quote")
  | NotDocx => true
  end.

Fixpoint all_xml_names (files : list file_handle) : bool :=
  match files with
  | [] => true
  | f :: rest => xml_text (doc_name_of f) && all_xml_names rest
  end.

(** A world where the name of the output directory is taken by a regular
    file. *)
Definition blocked_world : world :=
  with_fs {[ "/app/reviewed_docs" := NotDocx ]} empty_world.

(** The checklist after lines 106-109 have run for each name of a list,
    from the initial checklist of lines 72-80. *)
Definition checklist_of (names : list string) : checklist :=
  fold_left (fun d nm => update_checklist nm d) names initial_checklist.

(** * Properties *)

(** Membership in a list that is written out. *)
Ltac in_list :=
  unfold required_categories;
  repeat first [ apply list_elem_of_here | apply list_elem_of_further ].

(** ** Strings and paths *)

Module StrFacts.
Import Str.

Lemma app_nil_l (s : string) : "" +:+ s = s.
Proof. reflexivity. Qed.

Lemma app_cons (c : ascii) (s t : string) : String c s +:+ t = String c (s +:+ t).
Proof. reflexivity. Qed.

Lemma app_nil_r (s : string) : s +:+ "" = s.
Proof. induction s as [|c s IH]; [done|]. by rewrite app_cons, IH. Qed.

Lemma app_assoc (s t u : string) : (s +:+ t) +:+ u = s +:+ t +:+ u.
Proof. induction s as [|c s IH]; [done|]. by rewrite !app_cons, IH. Qed.

Lemma app_length (s t : string) :
  String.length (s +:+ t) = String.length s + String.length t.
Proof. induction s as [|c s IH]; [done|]. rewrite app_cons. simpl. by rewrite IH. Qed.

Lemma startswith_spec (p s : string) :
  startswith p s = true ↔ ∃ b, s = p +:+ b.
Proof.
  revert s. induction p as [|a p IH]; intros s; simpl.
  - split; [intros _; by exists s|done].
  - destruct s as [|c s].
    + split; [done|]. intros [b Hb]. by rewrite app_cons in Hb.
    + rewrite andb_true_iff, IH, Ascii.eqb_eq. split.
      * intros [-> [b ->]]. by exists b.
      * intros [b Hb]. rewrite app_cons in Hb. injection Hb as -> ->. eauto.
Qed.

Lemma contains_spec (p s : string) :
  contains p s = true ↔ Substring p s.
Proof.
  unfold Substring. induction s as [|c s IH].
  - simpl. rewrite orb_false_r, startswith_spec. split.
    + intros [b Hb]. by exists "", b.
    + intros [a [b Hab]]. destruct a as [|? ?]; [by exists b|].
      by rewrite app_cons in Hab.
  - simpl. rewrite orb_true_iff, startswith_spec, IH. split.
    + intros [[b Hb]|[a [b Hab]]].
      * by exists "", b.
      * exists (String c a), b. by rewrite app_cons, Hab.
    + intros [a [b Hab]]. destruct a as [|c' a].
      * left. by exists b.
      * right. rewrite app_cons in Hab. injection Hab as -> ->. by exists a, b.
Qed.

Lemma lower_app (s t : string) : lower (s +:+ t) = lower s +:+ lower t.
Proof. induction s as [|c s IH]; [done|]. rewrite app_cons. simpl. by rewrite IH, app_cons. Qed.

Lemma lower_char_idem (c : ascii) : lower_char (lower_char c) = lower_char c.
Proof. by destruct c as [[] [] [] [] [] [] [] []]. Qed.

Lemma lower_idem (s : string) : lower (lower s) = lower s.
Proof. induction s as [|c s IH]; [done|]. simpl. by rewrite lower_char_idem, IH. Qed.

(** A split of the lowered string comes from a split of the string. *)
Lemma lower_app_inv (s a b : string) :
  lower s = a +:+ b → ∃ s1 s2, s = s1 +:+ s2 ∧ lower s1 = a ∧ lower s2 = b.
Proof.
  revert s. induction a as [|c a IH]; intros s H.
  - by exists "", s.
  - destruct s as [|c' s]; [done|]. rewrite app_cons in H. simpl in H.
    injection H as Hc Hs. destruct (IH _ Hs) as (s1 & s2 & -> & <- & <-).
    exists (String c' s1), s2. simpl. by rewrite Hc.
Qed.

(** [lower p in lower s] is the case-insensitive test. *)
Lemma contains_lower (p s : string) :
  contains (lower p) (lower s) = true ↔ CaseInsensitiveSubstring p s.
Proof.
  rewrite contains_spec. unfold CaseInsensitiveSubstring, Substring. split.
  - intros (a & b & H).
    apply lower_app_inv in H as (s1 & s23 & -> & <- & H).
    apply lower_app_inv in H as (s2 & s3 & -> & H2 & <-).
    exists s2. split; [by exists s1, s3|done].
  - intros (q & (a & b & ->) & Hq).
    exists (lower a), (lower b). by rewrite !lower_app, Hq.
Qed.

Lemma contains_keyword (kw s : string) :
  lower kw = kw →
  (contains kw (lower s) = true ↔ CaseInsensitiveSubstring kw s).
Proof. intros H. by rewrite <-contains_lower, H. Qed.

End StrFacts.

Module PathFacts.
Import Path.

Lemma basename_no_sep (p : string) : has_sep (basename p) = false.
Proof.
  induction p as [|c p IH]; [done|]. simpl.
  destruct (has_sep p) eqn:Hp; [done|].
  destruct (Ascii.eqb c sep) eqn:Hc; [done|]. simpl. by rewrite Hc, Hp.
Qed.

Lemma has_sep_app (a b : string) : has_sep (a +:+ b) = has_sep a || has_sep b.
Proof.
  induction a as [|c a IH]; [done|].
  rewrite StrFacts.app_cons. simpl. by rewrite IH, orb_assoc.
Qed.

Lemma basename_after_sep (a b : string) :
  has_sep b = false → basename (a +:+ String sep b) = b.
Proof.
  intros Hb. induction a as [|c a IH].
  - rewrite StrFacts.app_nil_l. simpl. by rewrite Hb.
  - rewrite StrFacts.app_cons. simpl.
    rewrite has_sep_app. simpl. by rewrite orb_true_r.
Qed.

End PathFacts.

(** ** The classifier *)

Section Classifier.
Import Str.

Variable doc_name : string.

Local Abbreviation has kw := (CaseInsensitiveSubstring kw doc_name).

Local Ltac to_bool :=
  repeat match goal with
  | |- context [CaseInsensitiveSubstring ?kw doc_name] =>
      rewrite <-(StrFacts.contains_keyword kw doc_name) by reflexivity
  end.

Lemma classify_cases :
  let a := simulate_llm_analysis doc_name in
  ((has "articles" ∨ has "aoa") ∧
     a = {| doc_type := "Articles of Association"; issues := [jurisdiction_issue] |})
  ∨ (¬ (has "articles" ∨ has "aoa") ∧ (has "board" ∧ has "resolution") ∧
     a = {| doc_type := "Board Resolution"; issues := [signatory_issue] |})
  ∨ (¬ (has "articles" ∨ has "aoa") ∧ ¬ (has "board" ∧ has "resolution") ∧
     (has "memo" ∨ has "moa") ∧
     a = {| doc_type := "Memorandum of Association"; issues := [] |})
  ∨ (¬ (has "articles" ∨ has "aoa") ∧ ¬ (has "board" ∧ has "resolution") ∧
     ¬ (has "memo" ∨ has "moa") ∧ has "ubo" ∧
     a = {| doc_type := "UBO Declaration Form"; issues := [] |})
  ∨ (¬ (has "articles" ∨ has "aoa") ∧ ¬ (has "board" ∧ has "resolution") ∧
     ¬ (has "memo" ∨ has "moa") ∧ ¬ has "ubo" ∧ has "register" ∧
     a = {| doc_type := "Register of Members and Directors"; issues := [] |})
  ∨ (¬ (has "articles" ∨ has "aoa") ∧ ¬ (has "board" ∧ has "resolution") ∧
     ¬ (has "memo" ∨ has "moa") ∧ ¬ has "ubo" ∧ ¬ has "register" ∧
     a = {| doc_type := "General Document"; issues := [general_issue] |}).
Proof.
  intros a. to_bool. subst a. unfold simulate_llm_analysis.
  destruct (contains "articles" _), (contains "aoa" _); cbn [orb];
    try (left; by auto).
  right.
  destruct (contains "board" _), (contains "resolution" _); cbn [andb];
    try (left; intuition congruence).
  all: right.
  all: destruct (contains "memo" _), (contains "moa" _); cbn [orb];
    try (left; intuition congruence).
  all: right.
  all: destruct (contains "ubo" _); try (left; intuition congruence).
  all: right.
  all: destruct (contains "register" _); [left|right]; intuition congruence.
Qed.

(** C1. The classifier follows the fixed priority order, each test being a
    case-insensitive substring test on the file name and the first match
    winning: "articles" or "aoa" gives Articles of Association with exactly
    one High-severity issue carrying the fixed jurisdiction text; else
    "board" together with "resolution" gives Board Resolution with exactly
    one Medium-severity issue; else "memo" or "moa" gives Memorandum of
    Association without issues; else "ubo" gives UBO Declaration without
    issues; else "register" gives Register of Members without issues; and
    otherwise the result is General Document with exactly one Low-severity
    issue. *)
Theorem C1_classifier_priority_order :
  let a := simulate_llm_analysis doc_name in
  let p1 := has "articles" ∨ has "aoa" in
  let p2 := has "board" ∧ has "resolution" in
  let p3 := has "memo" ∨ has "moa" in
  let p4 := has "ubo" in
  let p5 := has "register" in
  (p1 →
     doc_type a = doc_type_label ArticlesOfAssociation ∧
     ∃ i, issues a = [i] ∧ severity i = severity_label High ∧
          issue i = "Jurisdiction clause does not explicitly specify 'ADGM Courts'.") ∧
  (¬ p1 → p2 →
     doc_type a = doc_type_label BoardResolution ∧
     ∃ i, issues a = [i] ∧ severity i = severity_label Medium) ∧
  (¬ p1 → ¬ p2 → p3 →
     doc_type a = doc_type_label MemorandumOfAssociation ∧ issues a = []) ∧
  (¬ p1 → ¬ p2 → ¬ p3 → p4 →
     doc_type a = doc_type_label UBODeclaration ∧ issues a = []) ∧
  (¬ p1 → ¬ p2 → ¬ p3 → ¬ p4 → p5 →
     doc_type a = doc_type_label RegisterOfMembers ∧ issues a = []) ∧
  (¬ p1 → ¬ p2 → ¬ p3 → ¬ p4 → ¬ p5 →
     doc_type a = doc_type_label GeneralDocument ∧
     ∃ i, issues a = [i] ∧ severity i = severity_label Low).
Proof.
  intros a p1 p2 p3 p4 p5.
  destruct classify_cases
    as [[? E]|[(? & ? & E)|[(? & ? & ? & E)|[(? & ? & ? & ? & E)|
        [(? & ? & ? & ? & ? & E)|(? & ? & ? & ? & ? & E)]]]]];
    fold a in E; rewrite E; cbn [doc_type issues];
    repeat split; intros; try contradiction; try reflexivity;
    eexists; repeat split; reflexivity.
Qed.

(** C9. The classifier returns at most one issue, and its document type is
    one of the six final types, never the initial value "Unknown". *)
Theorem C9_classifier_result_shape :
  let a := simulate_llm_analysis doc_name in
  length (issues a) ≤ 1 ∧
  (∃ t : DocType, doc_type a = doc_type_label t) ∧
  doc_type a ≠ "Unknown".
Proof.
  intros a.
  destruct classify_cases
    as [[? E]|[(? & ? & E)|[(? & ? & ? & E)|[(? & ? & ? & ? & E)|
        [(? & ? & ? & ? & ? & E)|(? & ? & ? & ? & ? & E)]]]]];
    fold a in E; rewrite E; cbn [doc_type issues length];
    (split; [lia|split; [|discriminate]]).
  - by exists ArticlesOfAssociation.
  - by exists BoardResolution.
  - by exists MemorandumOfAssociation.
  - by exists UBODeclaration.
  - by exists RegisterOfMembers.
  - by exists GeneralDocument.
Qed.

End Classifier.

(** Refuting that a keyword occurs in a given name, by running the test. *)
Ltac absent H :=
  apply (proj2 (StrFacts.contains_keyword _ _ eq_refl)) in H;
  vm_compute in H; discriminate H.

(** The first and the last row of the table, on two file names. *)
Lemma C1_classifier_priority_order_witness :
  (doc_type (simulate_llm_analysis "AoA_Acme.docx") = "Articles of Association" ∧
   ∃ i, issues (simulate_llm_analysis "AoA_Acme.docx") = [i] ∧
        severity i = "High" ∧
        issue i = "Jurisdiction clause does not explicitly specify 'ADGM Courts'.") ∧
  (doc_type (simulate_llm_analysis "randomfile.docx") = "General Document" ∧
   ∃ i, issues (simulate_llm_analysis "randomfile.docx") = [i] ∧ severity i = "Low").
Proof.
  split.
  - apply (proj1 (C1_classifier_priority_order "AoA_Acme.docx")).
    right. exists "AoA". split; [by exists "", "_Acme.docx"|reflexivity].
  - apply (proj2 (proj2 (proj2 (proj2 (proj2
             (C1_classifier_priority_order "randomfile.docx")))))).
    + intros [H|H]; absent H.
    + intros [H _]; absent H.
    + intros [H|H]; absent H.
    + intros H; absent H.
    + intros H; absent H.
Defined.

(** ** The checklist *)

Section Checklist.

Implicit Types (d : checklist) (k : string) (P Q : string → bool).

Lemma mark_keys P d : dict_keys (mark P d) = dict_keys d.
Proof. unfold dict_keys, mark. rewrite map_map. by apply map_ext. Qed.

Lemma mark_ext P Q d :
  (∀ k, k ∈ dict_keys d → P k = Q k) → mark P d = mark Q d.
Proof.
  intros H. unfold mark. apply map_ext_in. intros [k v] Hin. cbn.
  rewrite H; [done|]. apply list_elem_of_In. unfold dict_keys.
  apply in_map_iff. by exists (k, v).
Qed.

Lemma mark_none P d : (∀ k, k ∈ dict_keys d → P k = false) → mark P d = d.
Proof.
  intros H. induction d as [|[k v] d IH]; [done|].
  cbn. rewrite (H k), orb_false_r by (cbn; left).
  f_equal. apply IH. intros k' Hk'. apply H. cbn. by right.
Qed.

Lemma mark_mark P Q d : mark P (mark Q d) = mark (fun k => Q k || P k) d.
Proof.
  unfold mark. rewrite map_map. apply map_ext. intros [k v]. cbn.
  by rewrite orb_assoc.
Qed.

Lemma dict_get_mark P d k :
  dict_get k (mark P d) = (fun v => v || P k) <$> dict_get k d.
Proof.
  induction d as [|[k' v'] d IH]; [done|]. cbn.
  destruct (String.eqb k k') eqn:E; [|done].
  apply String.eqb_eq in E as ->. done.
Qed.

(** An assignment [d[k] = True] to a key of the dict. *)
Lemma dict_set_mark d k :
  NoDup (dict_keys d) → k ∈ dict_keys d →
  dict_set k true d = mark (String.eqb k) d.
Proof.
  induction d as [|[k' v'] d IH]; cbn.
  - by intros _ ?%elem_of_nil.
  - intros [Hk' Hd]%NoDup_cons Hk.
    destruct (String.eqb k k') eqn:E.
    + apply String.eqb_eq in E as ->. rewrite orb_true_r. f_equal.
      symmetry. apply mark_none. intros k Hin.
      apply String.eqb_neq. by intros ->.
    + rewrite orb_false_r. f_equal. apply IH; [done|].
      apply elem_of_cons in Hk as [->|Hk]; [|done].
      by rewrite String.eqb_refl in E.
Qed.

(** A flag that is set stays set under any assignment of [True]. *)
Lemma dict_get_set_true d k k' :
  dict_get k d = Some true → dict_get k (dict_set k' true d) = Some true.
Proof.
  induction d as [|[k0 v0] d IH]; cbn; [done|].
  destruct (String.eqb k' k0) eqn:E'; cbn.
  - apply String.eqb_eq in E' as ->.
    destruct (String.eqb k k0); [done|]. done.
  - destruct (String.eqb k k0); [done|]. apply IH.
Qed.

Variable doc_name : string.

Local Abbreviation matches := (key_matches doc_name).
Local Abbreviation step := (mark_key doc_name).

Lemma existsb_selected (m : string → bool) (ks : list string) k :
  k ∈ ks → existsb (fun k' => String.eqb k' k && m k') ks = m k.
Proof.
  intros Hk. destruct (m k) eqn:E.
  - apply existsb_exists. exists k. rewrite String.eqb_refl, E.
    split; [by apply list_elem_of_In|done].
  - apply not_true_iff_false. intros (k' & _ & H)%existsb_exists.
    apply andb_true_iff in H as [->%String.eqb_eq H]. congruence.
Qed.

Lemma fold_step_mark (ks : list string) d :
  NoDup (dict_keys d) → (∀ k, k ∈ ks → k ∈ dict_keys d) →
  fold_left step ks d =
  mark (fun k => existsb (fun k' => String.eqb k' k && matches k') ks) d.
Proof.
  revert d. induction ks as [|k0 ks IH]; intros d Hd Hks; cbn [fold_left existsb].
  - symmetry. by apply mark_none.
  - assert (k0 ∈ dict_keys d) as Hk0 by (apply Hks; left).
    assert (∀ k, k ∈ ks → k ∈ dict_keys d) as Hks' by (intros; apply Hks; by right).
    unfold mark_key at 2. destruct (matches k0) eqn:E.
    + rewrite dict_set_mark by done.
      rewrite IH by (by rewrite mark_keys). rewrite mark_mark.
      apply mark_ext. intros k _. by rewrite andb_true_r.
    + rewrite IH by done. apply mark_ext. intros k _.
      by rewrite andb_false_r.
Qed.

Lemma update_checklist_mark d :
  NoDup (dict_keys d) → update_checklist doc_name d = mark matches d.
Proof.
  intros Hd. unfold update_checklist.
  rewrite fold_step_mark by done.
  apply mark_ext. intros k Hk. by apply existsb_selected.
Qed.

Lemma update_checklist_keeps d k :
  dict_get k d = Some true → dict_get k (update_checklist doc_name d) = Some true.
Proof.
  unfold update_checklist. generalize (dict_keys d) as ks.
  intros ks. revert d. induction ks as [|k0 ks IH]; intros d Hd; cbn; [done|].
  apply IH. unfold mark_key. destruct (key_matches _ _); [|done].
  by apply dict_get_set_true.
Qed.

End Checklist.

Lemma simplified_key_lower (category : string) :
  Str.lower (simplified_key category) = simplified_key category.
Proof. apply StrFacts.lower_idem. Qed.

Lemma satisfied_spec (category : string) (names : list string) :
  satisfied category names = true ↔ Satisfied category names.
Proof.
  unfold satisfied, Satisfied. rewrite existsb_exists.
  split; intros (nm & Hin & H); exists nm.
  - split; [by apply list_elem_of_In|].
    by apply (StrFacts.contains_keyword _ _ (simplified_key_lower category)).
  - split; [by apply list_elem_of_In|].
    by apply (StrFacts.contains_keyword _ _ (simplified_key_lower category)).
Qed.

Lemma satisfied_same_names (category : string) (names names' : list string) :
  (∀ nm, nm ∈ names ↔ nm ∈ names') →
  satisfied category names = satisfied category names'.
Proof.
  intros H. apply eq_true_iff_eq. rewrite !satisfied_spec. unfold Satisfied.
  split; intros (nm & Hin & Hnm); exists nm; (split; [by apply H|done]).
Qed.

Lemma initial_checklist_keys : dict_keys initial_checklist = required_categories.
Proof. reflexivity. Qed.

Lemma required_categories_NoDup : NoDup required_categories.
Proof. apply (bool_decide_unpack _). by vm_compute. Qed.


(** ** Text and documents *)

Ltac run_bind := unfold mbind, outcome_bind; cbn beta iota.

Lemma has_char_app (c : ascii) (a b : string) :
  has_char c (a +:+ b) = has_char c a || has_char c b.
Proof.
  induction a as [|c' a IH]; [done|].
  rewrite StrFacts.app_cons. cbn. by rewrite IH, orb_assoc.
Qed.

Lemma xml_text_app (a b : string) : xml_text (a +:+ b) = xml_text a && xml_text b.
Proof.
  induction a as [|c a IH]; [done|].
  rewrite StrFacts.app_cons. cbn. by rewrite IH, andb_assoc.
Qed.

Lemma xml_text_no_NUL (s : string) : xml_text s = true → has_char NUL s = false.
Proof.
  induction s as [|c s IH]; [done|]. cbn.
  intros [Hc Hs]%andb_true_iff. rewrite (IH Hs), orb_false_r.
  destruct (Ascii.eqb c NUL) eqn:E; [|done].
  apply Ascii.eqb_eq in E as ->. discriminate Hc.
Qed.

Lemma extend_extend (doc : document) (a b : list block) :
  extend (extend doc a) b = extend doc (a ++ b).
Proof. unfold extend. cbn. by rewrite <-app_assoc. Qed.

Lemma extend_nil (doc : document) : extend doc [] = doc.
Proof. destruct doc as [b s]. unfold extend. cbn. by rewrite app_nil_r. Qed.

Lemma add_paragraph_plain (text : string) (doc : document) :
  add_paragraph text None doc
  = if xml_text text then Returns (extend doc [Paragraph text None])
    else Raises ValueError.
Proof. reflexivity. Qed.

Lemma add_paragraph_styled (text style_name : string) (doc : document) :
  xml_text text = true →
  add_paragraph text (Some style_name) doc
  = match styles doc !! style_name with
    | None => Raises KeyError
    | Some ParagraphStyle => Returns (extend doc [Paragraph text (Some style_name)])
    | Some _ => Raises ValueError
    end.
Proof. intros H. unfold add_paragraph. by rewrite H. Qed.

(** The handler of lines 102-104 raises exactly when the name is not XML
    text. *)
Lemma placeholder_document_spec (blank : document) (doc_name : string) :
  placeholder_document blank doc_name
  = if xml_text doc_name then Returns (extend blank (placeholder_body doc_name))
    else Raises ValueError.
Proof.
  assert (xml_text ("Original content of " +:+ doc_name +:+ " would be here.")
          = xml_text doc_name) as Hxml
    by (rewrite !xml_text_app; by destruct (xml_text doc_name)).
  unfold placeholder_document. rewrite add_paragraph_plain, Hxml.
  destruct (xml_text doc_name); [|done].
  run_bind. rewrite add_paragraph_plain.
  change (xml_text _) with true. cbn iota. by rewrite extend_extend.
Qed.

Lemma add_comment_spec (doc : document) (i : Issue) :
  issue_is_xml i = true →
  add_comment doc i
  = match styles doc !! "Intense Quote" with
    | None => Raises KeyError
    | Some ParagraphStyle => Returns (extend doc (issue_lines i))
    | Some _ => Raises ValueError
    end.
Proof.
  intros [Hc Hs]%andb_true_iff. unfold add_comment.
  rewrite add_paragraph_styled by done.
  destruct (styles doc !! "Intense Quote") as [[]|]; try done.
  run_bind. rewrite add_paragraph_plain, Hs. run_bind.
  rewrite add_paragraph_plain. cbn [xml_text]. by rewrite !extend_extend.
Qed.

Lemma add_comments_spec (l : list Issue) (doc : document) :
  forallb issue_is_xml l = true →
  add_comments l doc
  = match l with
    | [] => Returns doc
    | _ =>
        match styles doc !! "Intense Quote" with
        | None => Raises KeyError
        | Some ParagraphStyle => Returns (extend doc (flat_map issue_lines l))
        | Some _ => Raises ValueError
        end
    end.
Proof.
  revert doc. induction l as [|i l IH]; intros doc Hl; [done|].
  cbn in Hl. apply andb_true_iff in Hl as [Hi Hl].
  cbn [add_comments]. rewrite add_comment_spec by done.
  destruct (styles doc !! "Intense Quote") as [[]|] eqn:E; try done.
  run_bind. rewrite IH by done. destruct l as [|i' l].
  - cbn [flat_map]. by rewrite app_nil_r.
  - cbn [styles extend]. rewrite E. by rewrite extend_extend.
Qed.

Lemma insert_comments_spec (l : list Issue) (doc : document) :
  l ≠ [] → forallb issue_is_xml l = true →
  insert_comments l doc = comments_outcome doc l.
Proof.
  intros Hne Hl. unfold insert_comments, add_heading, comments_outcome.
  cbn [Nat.leb]. rewrite add_paragraph_styled by done.
  change ("Heading " +:+ Str.of_nat 2) with "Heading 2".
  change (styles (add_section doc)) with (styles doc).
  destruct l as [|i l]; [done|].
  destruct (styles doc !! "Heading 2") as [[]|]; try done.
  run_bind. rewrite add_comments_spec by done.
  change (styles (extend (add_section doc) _)) with (styles doc).
  destruct (styles doc !! "Intense Quote") as [[]|]; try done.
  unfold comment_section, extend, add_section, append_block.
  cbn [body styles]. by rewrite <-!app_assoc.
Qed.

Lemma analysis_issue_cases (doc_name : string) :
  let a := simulate_llm_analysis doc_name in
  (silent_type (doc_type a) = true ∧ issues a = [])
  ∨ (silent_type (doc_type a) = false ∧ ∃ i, i ∈ canned_issues ∧ issues a = [i]).
Proof.
  intros a.
  destruct (classify_cases doc_name)
    as [[? E]|[(? & ? & E)|[(? & ? & ? & E)|[(? & ? & ? & ? & E)|
        [(? & ? & ? & ? & ? & E)|(? & ? & ? & ? & ? & E)]]]]];
    fold a in E; rewrite E; cbn [doc_type issues].
  - right. split; [reflexivity|]. exists jurisdiction_issue.
    split; [|done]. unfold canned_issues. in_list.
  - right. split; [reflexivity|]. exists signatory_issue.
    split; [|done]. unfold canned_issues. in_list.
  - by left.
  - by left.
  - by left.
  - right. split; [reflexivity|]. exists general_issue.
    split; [|done]. unfold canned_issues. in_list.
Qed.

Lemma canned_issue_is_xml (i : Issue) : i ∈ canned_issues → issue_is_xml i = true.
Proof.
  unfold canned_issues. intros H.
  repeat (apply elem_of_cons in H as [->|H]; [by vm_compute|]).
  by apply elem_of_nil in H.
Qed.

Lemma analysis_issues_are_xml (doc_name : string) :
  forallb issue_is_xml (issues (simulate_llm_analysis doc_name)) = true.
Proof.
  destruct (analysis_issue_cases doc_name) as [[_ ->]|[_ (i & Hi & ->)]]; [done|].
  cbn. by rewrite canned_issue_is_xml.
Qed.

(** Lines 114-126 for the issues of the analysis of a name. *)
Lemma annotate_spec (doc_name : string) (found : list ReportIssue) (doc : document) :
  let l := issues (simulate_llm_analysis doc_name) in
  annotate doc_name (simulate_llm_analysis doc_name) found doc
  = match comments_outcome doc l with
    | Returns doc' => Returns (found ++ map (tag_issue doc_name) l, doc')
    | Raises e => Raises e
    end.
Proof.
  intros l. unfold annotate. fold l.
  pose proof (analysis_issues_are_xml doc_name) as Hxml. fold l in Hxml.
  destruct l as [|i l'] eqn:E.
  - cbn [comments_outcome map]. by rewrite app_nil_r.
  - rewrite insert_comments_spec by done. run_bind.
    by destruct (comments_outcome doc (i :: l')).
Qed.

(** ** Saving a reviewed document *)

Lemma reviewed_path_eq (doc_name : string) :
  reviewed_path doc_name = "reviewed_docs/reviewed_" +:+ doc_name.
Proof. reflexivity. Qed.

Lemma head_part_after_sep (a b : string) :
  Path.has_sep b = false →
  Path.head_part (a +:+ String Path.sep b) = a +:+ String Path.sep "".
Proof.
  intros Hb. induction a as [|c a IH].
  - rewrite !StrFacts.app_nil_l. cbn. by rewrite Hb.
  - rewrite !StrFacts.app_cons. cbn [Path.head_part].
    rewrite PathFacts.has_sep_app. cbn [Path.has_sep].
    rewrite Ascii.eqb_refl, orb_true_r. cbn [orb]. by rewrite IH.
Qed.

Lemma dirname_reviewed_path (p : string) :
  Path.dirname (reviewed_path (Path.basename p)) = output_dir.
Proof.
  rewrite reviewed_path_eq.
  change ("reviewed_docs/reviewed_" +:+ Path.basename p)
    with ("reviewed_docs" +:+ String Path.sep ("reviewed_" +:+ Path.basename p)).
  unfold Path.dirname. rewrite head_part_after_sep; [reflexivity|].
  rewrite PathFacts.has_sep_app. by rewrite PathFacts.basename_no_sep.
Qed.

Lemma reviewed_path_NUL (doc_name : string) :
  has_char NUL (reviewed_path doc_name) = has_char NUL doc_name.
Proof. reflexivity. Qed.

(** [doc.save] at the output path of a file. *)
Lemma save_reviewed (doc : document) (f : file_handle) (w : world) :
  save doc (reviewed_path (doc_name_of f)) w
  = if has_char NUL (doc_name_of f) then (Raises ValueError, w)
    else if bool_decide (resolve w output_dir ∈ dirs w) then
      if bool_decide (target w (doc_name_of f) ∈ dirs w) then (Raises OSError, w)
      else if denied w (reviewed_path (doc_name_of f)) then (Raises OSError, w)
      else (Returns tt,
            with_fs (<[target w (doc_name_of f) := Docx doc]> (fs w)) w)
    else (Raises OSError, w).
Proof.
  unfold save, doc_name_of. rewrite dirname_reviewed_path, reviewed_path_NUL.
  change (match output_dir with "" => "." | d => d end) with output_dir.
  unfold target. by destruct (bool_decide (resolve w output_dir ∈ dirs w)).
Qed.

Lemma save_reviewed_ready (doc : document) (f : file_handle) (w : world) :
  save_ready w f →
  save doc (reviewed_path (doc_name_of f)) w
  = (Returns tt, with_fs (<[target w (doc_name_of f) := Docx doc]> (fs w)) w).
Proof.
  intros (Hnul & Hdir & Htarget & Hden). rewrite save_reviewed, Hnul, Hden.
  by rewrite (bool_decide_eq_true_2 _ Hdir), (bool_decide_eq_false_2 _ Htarget).
Qed.

Lemma save_reviewed_inv (doc : document) (f : file_handle) (w w' : world) :
  save doc (reviewed_path (doc_name_of f)) w = (Returns tt, w') →
  save_ready w f ∧
  w' = with_fs (<[target w (doc_name_of f) := Docx doc]> (fs w)) w.
Proof.
  rewrite save_reviewed. unfold save_ready.
  destruct (has_char NUL _); [done|].
  case_bool_decide; [|done]. case_bool_decide; [done|].
  destruct (denied w _); [done|]. by intros [= <-].
Qed.

(** ** One file *)

(** What lines 97-126 make of a file: the document to save, or the
    exception. *)
Lemma base_document_outcome (w : world) (f : file_handle) :
  fst (load_document f w)
  = match open_document w (name f) with
    | Some d => Returns d
    | None =>
        if xml_text (doc_name_of f) then Returns (base_document w f)
        else Raises ValueError
    end.
Proof.
  unfold load_document, base_document.
  destruct (open_document w (name f)); [done|].
  cbn [fst]. by rewrite placeholder_document_spec.
Qed.

(** One iteration, written out. *)
Lemma process_file_unfold (total i : nat) (f : file_handle)
    (st : loop_state) (w : world) :
  let w1 := with_progress_log (progress_log w ++ [analyzing_event total i f]) w in
  let l := issues (simulate_llm_analysis (doc_name_of f)) in
  process_file total i f st w
  = match fst (load_document f w) with
    | Raises e => (Raises e, w1)
    | Returns doc =>
        match comments_outcome doc l with
        | Raises e => (Raises e, w1)
        | Returns doc' =>
            match save doc' (reviewed_path (doc_name_of f)) w1 with
            | (Returns _, w2) => (Returns (next_state st f), w2)
            | (Raises e, w2) => (Raises e, w2)
            end
        end
    end.
Proof.
  intros w1 l. cbv beta iota zeta delta [process_file bind progress lift ret].
  fold (analyzing_event total i f). fold (doc_name_of f). fold w1.
  assert (load_document f w1 = (fst (load_document f w), w1)) as ->
    by (unfold load_document; change (open_document w1) with (open_document w);
        by destruct (open_document w (name f))).
  destruct (fst (load_document f w)) as [doc|e]; [|done].
  rewrite annotate_spec. fold l.
  destruct (comments_outcome doc l) as [doc'|e]; [|done].
  cbn [fst snd]. by destruct (save doc' _ w1) as [[[]|e] w2].
Qed.

(** An iteration that returns has saved the reviewed document of the file
    and gone to the next state. *)
Lemma process_file_returns (total i : nat) (f : file_handle)
    (st st' : loop_state) (w w' : world) :
  process_file total i f st w = (Returns st', w') →
  st' = next_state st f ∧ w' = next_world total i w f ∧ save_ready w f ∧
  match open_document w (name f) with
  | Some d => comments_outcome d (issues (simulate_llm_analysis (doc_name_of f)))
              = Returns (reviewed_document w f)
  | None => xml_text (doc_name_of f) = true
  end.
Proof.
  rewrite process_file_unfold, base_document_outcome.
  unfold next_world, reviewed_document, base_document.
  set (l := issues (simulate_llm_analysis (doc_name_of f))).
  set (w1 := with_progress_log _ w).
  assert (∀ doc doc', comments_outcome doc l = Returns doc' → doc' = extend doc (comment_section l))
    as Hext.
  { intros doc doc'. unfold comments_outcome. destruct l as [|i0 l'].
    - intros [= <-]. cbn. by rewrite extend_nil.
    - destruct (styles doc !! "Heading 2") as [[]|]; try done.
      destruct (styles doc !! "Intense Quote") as [[]|]; try done.
      by intros [= <-]. }
  destruct (open_document w (name f)) as [d|] eqn:Hopen.
  - destruct (comments_outcome d l) as [doc'|e] eqn:Hc; [|done].
    apply Hext in Hc as Hdoc. subst doc'.
    destruct (save _ _ w1) as [[[]|e] w2] eqn:Hsave; [|done].
    intros [= <- <-]. apply save_reviewed_inv in Hsave as [Hready ->].
    done.
  - destruct (xml_text (doc_name_of f)) eqn:Hxml; [|done].
    destruct (comments_outcome _ l) as [doc'|e] eqn:Hc; [|done].
    apply Hext in Hc as Hdoc. subst doc'.
    destruct (save _ _ w1) as [[[]|e] w2] eqn:Hsave; [|done].
    intros [= <- <-]. apply save_reviewed_inv in Hsave as [Hready ->].
    done.
Qed.

Lemma comments_outcome_ready (doc : document) (l : list Issue) :
  l = [] ∨ comment_styles doc →
  comments_outcome doc l = Returns (extend doc (comment_section l)).
Proof.
  unfold comments_outcome. intros [->|[H2 HQ]].
  - cbn. by rewrite extend_nil.
  - destruct l; [cbn; by rewrite extend_nil|]. by rewrite H2, HQ.
Qed.

(** An iteration goes through when the document and the operating system
    allow it. *)
Lemma process_file_ready (total i : nat) (f : file_handle)
    (st : loop_state) (w : world) :
  document_ready w f → save_ready w f →
  process_file total i f st w = (Returns (next_state st f), next_world total i w f).
Proof.
  intros Hdoc Hsave. rewrite process_file_unfold, base_document_outcome.
  unfold document_ready in Hdoc. unfold next_world, reviewed_document, base_document.
  destruct (open_document w (name f)) as [d|].
  - rewrite comments_outcome_ready by done. by rewrite save_reviewed_ready.
  - destruct Hdoc as [-> Hdoc].
    rewrite comments_outcome_ready by done. by rewrite save_reviewed_ready.
Qed.

(** ** The loop over the files *)

Lemma for_each_file_app (total : nat) (pre post : list file_handle) (i : nat)
    (st : loop_state) (w : world) :
  for_each_file total i (pre ++ post) st w
  = match for_each_file total i pre st w with
    | (Returns st1, w1) => for_each_file total (i + length pre) post st1 w1
    | (Raises e, w1) => (Raises e, w1)
    end.
Proof.
  revert i st w. induction pre as [|f pre IH]; intros i st w.
  - cbn. by rewrite Nat.add_0_r.
  - cbn [app for_each_file length]. unfold bind.
    destruct (process_file total i f st w) as [[st1|e] w1]; [|done].
    rewrite IH. by rewrite Nat.add_succ_r.
Qed.

(** A loop that returns has gone through every file. *)
Lemma loop_returns (total : nat) (files : list file_handle) (i : nat)
    (st st' : loop_state) (w w' : world) :
  for_each_file total i files st w = (Returns st', w') →
  st' = state_of files st ∧ w' = loop_world total i files w.
Proof.
  revert i st w. induction files as [|f files IH]; intros i st w.
  - by intros [= <- <-].
  - cbn [for_each_file state_of fold_left loop_world]. unfold bind.
    destruct (process_file total i f st w) as [[st1|e] w1] eqn:Hstep; [|done].
    apply process_file_returns in Hstep as (-> & -> & _).
    apply IH.
Qed.

Lemma loop_returns_split (total : nat) (pre post : list file_handle) (i : nat)
    (st st' : loop_state) (w w' : world) :
  for_each_file total i (pre ++ post) st w = (Returns st', w') →
  for_each_file total i pre st w
  = (Returns (state_of pre st), loop_world total i pre w) ∧
  for_each_file total (i + length pre) post (state_of pre st) (loop_world total i pre w)
  = (Returns st', w').
Proof.
  rewrite for_each_file_app.
  destruct (for_each_file total i pre st w) as [[st1|e] w1] eqn:Hpre; [|done].
  apply loop_returns in Hpre as [-> ->]. done.
Qed.

Section LoopState.

Implicit Types (st : loop_state) (files : list file_handle).

Lemma state_of_app files files' st :
  state_of (files ++ files') st = state_of files' (state_of files st).
Proof. unfold state_of. apply fold_left_app. Qed.

Lemma state_of_checklist files st :
  NoDup (dict_keys (incorporation_checklist st)) →
  incorporation_checklist (state_of files st)
  = mark (fun k => satisfied k (map doc_name_of files)) (incorporation_checklist st).
Proof.
  revert st. induction files as [|f files IH]; intros st Hd;
    cbn [state_of fold_left map].
  - symmetry. by apply mark_none.
  - fold (state_of files (next_state st f)).
    rewrite IH; cbn [next_state incorporation_checklist].
    + rewrite update_checklist_mark by done. by rewrite mark_mark.
    + by rewrite update_checklist_mark, mark_keys.
Qed.

Lemma state_of_checklist_keeps files st (k : string) :
  dict_get k (incorporation_checklist st) = Some true →
  dict_get k (incorporation_checklist (state_of files st)) = Some true.
Proof.
  revert st. induction files as [|f files IH]; intros st H; [done|].
  cbn [state_of fold_left]. fold (state_of files (next_state st f)).
  apply IH. cbn. by apply update_checklist_keeps.
Qed.

Lemma state_of_issues files st :
  all_issues (state_of files st) = all_issues st ++ flat_map issues_of_file files.
Proof.
  revert st. induction files as [|f files IH]; intros st;
    cbn [state_of fold_left flat_map].
  - by rewrite app_nil_r.
  - fold (state_of files (next_state st f)). rewrite IH. cbn.
    by rewrite <-app_assoc.
Qed.

Lemma state_of_paths files st :
  reviewed_file_paths (state_of files st)
  = reviewed_file_paths st ++ map (fun f => reviewed_path (doc_name_of f)) files.
Proof.
  revert st. induction files as [|f files IH]; intros st;
    cbn [state_of fold_left map].
  - by rewrite app_nil_r.
  - fold (state_of files (next_state st f)). rewrite IH. cbn.
    by rewrite <-app_assoc.
Qed.

Lemma state_of_initial files :
  state_of files initial_state
  = {| incorporation_checklist :=
         mark (fun k => satisfied k (map doc_name_of files)) initial_checklist;
       all_issues := flat_map issues_of_file files;
       reviewed_file_paths := map (fun f => reviewed_path (doc_name_of f)) files |}.
Proof.
  pose proof (state_of_checklist files initial_state) as Hc.
  pose proof (state_of_issues files initial_state) as Hi.
  pose proof (state_of_paths files initial_state) as Hp.
  destruct (state_of files initial_state) as [c i p]. cbn in Hc, Hi, Hp.
  rewrite Hc, Hi, Hp; [done|].
  change (NoDup (dict_keys initial_checklist)).
  rewrite initial_checklist_keys. apply required_categories_NoDup.
Qed.

End LoopState.

Section LoopWorld.

Variable total : nat.

Implicit Types (w : world) (files : list file_handle) (i : nat).

Lemma loop_world_app files files' i w :
  loop_world total i (files ++ files') w
  = loop_world total (i + length files) files' (loop_world total i files w).
Proof.
  revert i w. induction files as [|f files IH]; intros i w; cbn.
  - by rewrite Nat.add_0_r.
  - rewrite IH. by rewrite Nat.add_succ_r.
Qed.

Lemma loop_world_static files i w :
  dirs (loop_world total i files w) = dirs w ∧
  resolve (loop_world total i files w) = resolve w ∧
  denied (loop_world total i files w) = denied w ∧
  template_styles (loop_world total i files w) = template_styles w.
Proof.
  revert i w. induction files as [|f files IH]; intros i w; [done|].
  cbn [loop_world]. by destruct (IH (S i) (next_world total i w f)) as (-> & -> & -> & ->).
Qed.

Lemma loop_world_resolve files i w :
  resolve (loop_world total i files w) = resolve w.
Proof. apply loop_world_static. Qed.

Lemma loop_world_target files i w (doc_name : string) :
  target (loop_world total i files w) doc_name = target w doc_name.
Proof. unfold target. by rewrite loop_world_resolve. Qed.

Lemma loop_world_log files i w :
  progress_log (loop_world total i files w)
  = progress_log w ++ imap (fun j f => analyzing_event total (i + j) f) files.
Proof.
  revert i w. induction files as [|f files IH]; intros i w; cbn [loop_world].
  - by rewrite app_nil_r.
  - rewrite IH. cbn [next_world with_fs with_progress_log progress_log].
    rewrite <-app_assoc, imap_cons, Nat.add_0_r. cbn [app].
    do 2 f_equal. apply imap_ext. intros j g _. cbn.
    by rewrite Nat.add_succ_r.
Qed.

(** The loop writes to the files its output paths denote and nowhere else. *)
Lemma loop_world_other files i w (id : string) :
  id ∉ map (fun f => target w (doc_name_of f)) files →
  fs (loop_world total i files w) !! id = fs w !! id.
Proof.
  revert i w. induction files as [|f files IH]; intros i w Hid; [done|].
  cbn [map] in Hid. apply not_elem_of_cons in Hid as [Hne Hid].
  cbn [loop_world]. rewrite IH.
  - cbn [next_world with_fs fs]. by rewrite lookup_insert_ne.
  - done.
Qed.

Lemma loop_world_written files i w (id : string) :
  id ∈ map (fun f => target w (doc_name_of f)) files →
  ∃ d, fs (loop_world total i files w) !! id = Some (Docx d).
Proof.
  revert i w. induction files as [|f files IH]; intros i w Hid.
  - by apply elem_of_nil in Hid.
  - cbn [loop_world].
    destruct (decide (id ∈ map (fun f => target w (doc_name_of f)) files))
      as [Hin|Hout].
    + by apply IH.
    + cbn [map] in Hid. apply elem_of_cons in Hid as [->|Hid]; [|done].
      rewrite loop_world_other by done.
      cbn [next_world with_fs fs]. rewrite lookup_insert_eq. by eexists.
Qed.

Lemma loop_world_dom files i w :
  dom (fs (loop_world total i files w))
  = dom (fs w) ∪ list_to_set (map (fun f => target w (doc_name_of f)) files).
Proof.
  revert i w. induction files as [|f files IH]; intros i w; cbn [loop_world map].
  - rewrite list_to_set_nil. by rewrite (right_id_L ∅ (∪)).
  - rewrite IH. cbn [next_world with_fs fs].
    rewrite dom_insert_L, list_to_set_cons.
    rewrite (assoc_L (∪)). f_equal. apply (comm_L (∪)).
Qed.

Lemma loop_world_size files i w :
  size (fs (loop_world total i files w)) ≤ size (fs w) + length files.
Proof.
  revert i w. induction files as [|f files IH]; intros i w;
    cbn [loop_world length].
  - lia.
  - etrans; [apply IH|]. cbn [next_world with_fs fs].
    rewrite map_size_insert. destruct (fs w !! _); cbn [id]; lia.
Qed.

(** The last file written to a target is the one it holds. *)
Lemma loop_world_last files i w (f : file_handle) (rest : list file_handle) :
  (∀ g, g ∈ rest → target w (doc_name_of g) ≠ target w (doc_name_of f)) →
  fs (loop_world total i (files ++ f :: rest) w) !! target w (doc_name_of f)
  = Some (Docx (reviewed_document (loop_world total i files w) f)).
Proof.
  intros Hrest. rewrite loop_world_app. cbn [loop_world].
  rewrite loop_world_other.
  - cbn [next_world with_fs fs]. rewrite loop_world_target.
    apply lookup_insert_eq.
  - cbn [next_world with_fs with_progress_log resolve target].
    intros (g & Hg & Hin)%list_elem_of_fmap.
    apply (Hrest g Hin). unfold target in *.
    by rewrite loop_world_resolve in Hg.
Qed.

End LoopWorld.

(** ** The batch operation *)

Lemma ensure_output_dir_spec (w : world) :
  ensure_output_dir w
  = if path_exists output_dir w then (Returns tt, w)
    else if denied w output_dir then (Raises OSError, w)
    else (Returns tt, entered w).
Proof.
  unfold ensure_output_dir, makedirs, entered.
  by destruct (path_exists output_dir w).
Qed.

Lemma ensure_output_dir_returns (w w0 : world) :
  ensure_output_dir w = (Returns tt, w0) →
  w0 = entered w ∧ (path_exists output_dir w = false → denied w output_dir = false).
Proof.
  rewrite ensure_output_dir_spec. unfold entered.
  destruct (path_exists output_dir w).
  - by intros [= <-].
  - destruct (denied w output_dir); [done|]. by intros [= <-].
Qed.

Lemma entered_static (w : world) :
  fs (entered w) = fs w ∧ resolve (entered w) = resolve w ∧
  denied (entered w) = denied w ∧ template_styles (entered w) = template_styles w ∧
  progress_log (entered w) = progress_log w.
Proof. unfold entered. by destruct (path_exists output_dir w). Qed.

Lemma entered_dirs (w : world) (id : string) :
  id ∈ dirs (entered w)
  ↔ id ∈ dirs w ∨ (path_exists output_dir w = false ∧ id = resolve w output_dir).
Proof.
  unfold entered. destruct (path_exists output_dir w); cbn [dirs with_dirs].
  - split; [by left|]. by intros [?|[? _]].
  - rewrite elem_of_union, elem_of_singleton. split.
    + intros [->|?]; [by right|by left].
    + intros [?|[_ ->]]; [by right|by left].
Qed.

Lemma entered_target (w : world) (doc_name : string) :
  target (entered w) doc_name = target w doc_name.
Proof. unfold target. by destruct (entered_static w) as (_ & -> & _). Qed.

Lemma state_after_returns (total : nat) (done : list file_handle)
    (st : loop_state) (w w1 : world) :
  state_after total done w = (Returns st, w1) →
  st = state_of done initial_state ∧
  w1 = loop_world total 0 done (entered w) ∧
  for_each_file total 0 done initial_state (entered w) = (Returns st, w1).
Proof.
  unfold state_after, bind.
  destruct (ensure_output_dir w) as [[[]|e] w0] eqn:He; [|done].
  apply ensure_output_dir_returns in He as [-> _].
  intros H. destruct (loop_returns _ _ _ _ _ _ _ H) as [-> ->]. done.
Qed.

Lemma run_loop_returns (files : list file_handle) (st : loop_state) (w w1 : world) :
  run_loop files w = (Returns st, w1) →
  st = state_of files initial_state ∧
  w1 = loop_world (length files) 0 files (entered w).
Proof. intros H. by apply state_after_returns in H as (? & ? & _). Qed.

(** A run that returns has gone through the loop, and its results are
    those of the final state. *)
Lemma analyze_documents_returns (files : list file_handle) (w w' : world)
    (summary : string) (report : BatchReport) (paths : list string) :
  analyze_documents files w = (Returns (summary, report, paths), w') →
  files ≠ [] ∧
  state_after (length files) files w
  = (Returns (state_of files initial_state),
     loop_world (length files) 0 files (entered w)) ∧
  summary = checklist_summary (length files)
              (incorporation_checklist (state_of files initial_state)) ∧
  report = build_report (length files) (state_of files initial_state) ∧
  paths = map (fun f => reviewed_path (doc_name_of f)) files ∧
  w' = with_progress_log
         (progress_log (loop_world (length files) 0 files (entered w))
          ++ [Progress 1 1 "Generating final report..."])
         (loop_world (length files) 0 files (entered w)).
Proof.
  destruct files as [|f files]; [done|].
  unfold analyze_documents, bind.
  change (run_loop (f :: files)) with (state_after (length (f :: files)) (f :: files)).
  destruct (state_after _ _ w) as [[st|e] w1] eqn:Hloop; [|done].
  apply state_after_returns in Hloop as (-> & -> & _).
  unfold progress, ret. intros [= <- <- <- <-].
  rewrite state_of_paths. done.
Qed.

(** The conditions under which the loop goes through. *)
Lemma loop_ready (total : nat) (files : list file_handle) (i : nat)
    (st : loop_state) (w : world) :
  comment_styles (blank_document w) →
  (∀ id d, fs w !! id = Some (Docx d) → comment_styles d) →
  resolve w output_dir ∈ dirs w →
  (∀ f, f ∈ files →
        xml_text (doc_name_of f) = true ∧
        (target w (doc_name_of f) ∉ dirs w) ∧
        denied w (reviewed_path (doc_name_of f)) = false) →
  for_each_file total i files st w
  = (Returns (state_of files st), loop_world total i files w).
Proof.
  revert i st w. induction files as [|f files IH];
    intros i st w Hblank Hstore Hdir Hfiles; [done|].
  destruct (Hfiles f) as (Hxml & Htarget & Hden); [by left|].
  assert (comment_styles (base_document w f)) as Hbase.
  { unfold base_document, open_document.
    destruct (has_char NUL (name f)); [done|].
    destruct (fs w !! resolve w (name f)) as [[d|]|] eqn:E; try done.
    by apply (Hstore _ _ E). }
  cbn [for_each_file state_of fold_left loop_world]. unfold bind.
  rewrite process_file_ready.
  - apply IH.
    + done.
    + intros id d. cbn [next_world with_fs fs].
      rewrite lookup_insert. case_decide.
      * intros [= <-]. done.
      * apply Hstore.
    + done.
    + intros g Hg. apply Hfiles. by right.
  - unfold document_ready. unfold base_document in Hbase.
    destruct (open_document w (name f)); [by right|]. split; [done|by right].
  - split; [by apply xml_text_no_NUL|done].
Qed.

(** The conditions under which the whole run goes through. *)
Lemma run_loop_ready (files : list file_handle) (w : world) :
  ready files w →
  run_loop files w
  = (Returns (state_of files initial_state),
     loop_world (length files) 0 files (entered w)).
Proof.
  intros (Hblank & Hstore & Hdir & Hfiles).
  assert (for_each_file (length files) 0 files initial_state (entered w)
          = (Returns (state_of files initial_state),
             loop_world (length files) 0 files (entered w))) as Hloop.
  { destruct (entered_static w) as (Hfs & Hres & Hden & Htpl & _).
    apply loop_ready.
    - unfold comment_styles, blank_document in *. cbn [styles] in *. by rewrite Htpl.
    - rewrite Hfs. apply Hstore.
    - apply entered_dirs. rewrite Hres.
      destruct (path_exists output_dir w); [by left|by right].
    - intros f Hf. destruct (Hfiles f Hf) as (Hxml & Htarget & Hne' & Hd).
      split; [done|]. split; [|by rewrite Hden].
      rewrite entered_target. intros [?|[_ ?]]%entered_dirs; done. }
  unfold run_loop, bind. rewrite ensure_output_dir_spec.
  destruct (path_exists output_dir w) eqn:Hexists.
  - unfold entered in Hloop. rewrite Hexists in Hloop. rewrite Hloop.
    unfold entered. by rewrite Hexists.
  - by rewrite Hdir, Hloop.
Qed.

Lemma ready_returns (files : list file_handle) (w : world) :
  files ≠ [] → ready files w →
  ∃ result w', analyze_documents files w = (Returns result, w').
Proof.
  intros Hne Hready. destruct files as [|f files]; [done|].
  unfold analyze_documents, bind. rewrite run_loop_ready by done.
  by eexists _, _.
Qed.

Lemma first_missing (names : list string) (d : checklist) :
  (∀ kv, kv ∈ d → snd kv = false) →
  match missing_docs (mark (fun k => satisfied k names) d) with
  | first :: _ => first
  | [] => "None"
  end = first_unsatisfied (dict_keys d) names.
Proof.
  induction d as [|[k v] d IH]; intros Hd; [done|].
  assert (v = false) as -> by (apply (Hd (k, v)); left).
  unfold missing_docs in *. cbn.
  destruct (satisfied k names); cbn; [|done].
  apply IH. intros kv Hkv. apply Hd. by right.
Qed.

Lemma initial_flags_false (kv : string * bool) :
  kv ∈ initial_checklist → snd kv = false.
Proof.
  unfold initial_checklist. intros H.
  repeat (apply elem_of_cons in H as [->|H]; [reflexivity|]).
  by apply elem_of_nil in H.
Qed.

Lemma final_flag (files : list file_handle) (category : string) :
  category ∈ required_categories →
  dict_get category (incorporation_checklist (state_of files initial_state))
  = Some (satisfied category (map doc_name_of files)).
Proof.
  intros Hc. rewrite state_of_initial. cbn [incorporation_checklist].
  rewrite dict_get_mark. rewrite <-initial_checklist_keys in Hc.
  assert (dict_get category initial_checklist = Some false) as ->; [|done].
  unfold initial_checklist in *. cbn in Hc.
  repeat (apply elem_of_cons in Hc as [->|Hc]; [reflexivity|]).
  by apply elem_of_nil in Hc.
Qed.

(** The sample run goes through. *)
Lemma scenario_ready : ready scenario_files sample_world.
Proof.
  split; [by split|]. split; [|split].
  - intros id d. cbn [sample_world with_fs fs].
    intros [[<- H]|[_ H]]%lookup_insert_Some.
    + injection H as <-. by split.
    + apply lookup_singleton_Some in H as [_ [=]].
  - by vm_compute.
  - intros f Hf. unfold scenario_files in Hf.
    repeat (apply elem_of_cons in Hf as [->|Hf];
            [split; [reflexivity|]; split; [|split; [discriminate|reflexivity]];
             cbn [sample_world with_fs empty_world dirs]; apply not_elem_of_empty|]).
    by apply elem_of_nil in Hf.
Qed.

Lemma analyze_documents_ready (files : list file_handle) (w : world) :
  files ≠ [] → ready files w →
  analyze_documents files w
  = (Returns (checklist_summary (length files)
                (incorporation_checklist (state_of files initial_state)),
              build_report (length files) (state_of files initial_state),
              map (fun f => reviewed_path (doc_name_of f)) files),
     with_progress_log
       (progress_log (loop_world (length files) 0 files (entered w))
        ++ [Progress 1 1 "Generating final report..."])
       (loop_world (length files) 0 files (entered w))).
Proof.
  intros Hne Hready. destruct files as [|f files]; [done|].
  unfold analyze_documents, bind. rewrite run_loop_ready by done.
  unfold progress, ret. by rewrite state_of_paths.
Qed.

Lemma state_after_ready (files : list file_handle) (w : world) :
  ready files w →
  state_after (length files) files w
  = (Returns (state_of files initial_state),
     loop_world (length files) 0 files (entered w)).
Proof. apply run_loop_ready. Qed.

(** A loop that returns after at least one file has found the output
    directory to be a directory. *)
Lemma loop_returns_dir (total : nat) (f : file_handle) (files : list file_handle)
    (i : nat) (st st' : loop_state) (w w' : world) :
  for_each_file total i (f :: files) st w = (Returns st', w') →
  resolve w output_dir ∈ dirs w.
Proof.
  cbn [for_each_file]. unfold bind.
  destruct (process_file total i f st w) as [[st1|e] w1] eqn:Hstep; [|done].
  apply process_file_returns in Hstep as (_ & _ & (_ & Hdir & _) & _). done.
Qed.

(** The names of the empty sample world are ready when they are XML text. *)
Lemma empty_world_ready (files : list file_handle) :
  (∀ f, f ∈ files → xml_text (doc_name_of f) = true) →
  ready files empty_world.
Proof.
  intros Hxml. split; [by split|]. split; [|split].
  - intros id d. cbn. by rewrite lookup_empty.
  - by vm_compute.
  - intros f Hf. split; [by apply Hxml|].
    split; [apply not_elem_of_empty|]. split; [|reflexivity].
    unfold target. rewrite reviewed_path_eq. cbn. discriminate.
Qed.

Lemma first_unflagged_final (files : list file_handle) :
  first_unflagged required_categories
    (incorporation_checklist (state_of files initial_state))
  = first_unsatisfied required_categories (map doc_name_of files).
Proof.
  assert (∀ categories,
            (∀ c, c ∈ categories → c ∈ required_categories) →
            first_unflagged categories
              (incorporation_checklist (state_of files initial_state))
            = first_unsatisfied categories (map doc_name_of files)) as H.
  { induction categories as [|c cs IH]; intros Hc; [done|].
    cbn [first_unflagged first_unsatisfied].
    rewrite final_flag by (apply Hc; left).
    destruct (satisfied c _); [|done].
    apply IH. intros; apply Hc; by right. }
  by apply H.
Qed.

Lemma missing_document_final (files : list file_handle) :
  missing_document (build_report (length files) (state_of files initial_state))
  = first_unsatisfied required_categories (map doc_name_of files).
Proof.
  unfold build_report. cbn [missing_document].
  rewrite state_of_initial. cbn [incorporation_checklist].
  rewrite first_missing by apply initial_flags_false. reflexivity.
Qed.

(** ** The report *)

(** C4. The report of a batch that returns has the fixed process name, the
    number of uploaded files, 7 required documents, as missing document the
    first category in the declared order whose flag is false at the end of
    the loop (or "None" when all seven flags are set), and as issues the
    concatenation, in file order, of the issues of each file, each with the
    base name of its file in the field "document" beside its own four
    fields.  A non-empty batch returns whenever the documents and the
    operating system allow the run to go through. *)
Theorem C4_batch_report (files : list file_handle) (w : world) :
  (files ≠ [] → ready files w →
   ∃ result w', analyze_documents files w = (Returns result, w')) ∧
  ∀ summary report paths w',
    analyze_documents files w = (Returns (summary, report, paths), w') →
    files ≠ [] ∧
    process report = "Company Incorporation" ∧
    documents_uploaded report = length files ∧
    required_documents report = 7 ∧
    (∃ st w1,
       state_after (length files) files w = (Returns st, w1) ∧
       missing_document report
       = first_unflagged
           [ "Articles of Association (AoA)";
             "Memorandum of Association (MoA/MoU)";
             "Board Resolution Templates";
             "Shareholder Resolution Templates";
             "Incorporation Application Form";
             "UBO Declaration Form";
             "Register of Members and Directors" ]
           (incorporation_checklist st)) ∧
    issues_found report
    = flat_map
        (fun f =>
           map (fun i => {| document_name := Path.basename (name f);
                            r_section := section i;
                            r_issue := issue i;
                            r_severity := severity i;
                            r_suggestion := suggestion i |})
             (issues (simulate_llm_analysis (Path.basename (name f)))))
        files.
Proof.
  split; [apply ready_returns|].
  intros summary report paths w' H.
  apply analyze_documents_returns in H as (Hne & Hloop & _ & -> & _ & _).
  split; [done|]. split; [done|]. split; [done|]. split; [|split].
  - unfold build_report. cbn [required_documents].
    rewrite state_of_initial. cbn [incorporation_checklist].
    unfold mark. by rewrite length_map.
  - eexists _, _. split; [exact Hloop|].
    rewrite missing_document_final.
    symmetry. apply first_unflagged_final.
  - unfold build_report. cbn [issues_found]. by rewrite state_of_issues.
Qed.

Lemma C4_batch_report_witness :
  ∃ summary report paths w',
    analyze_documents scenario_files sample_world
    = (Returns (summary, report, paths), w') ∧
    process report = "Company Incorporation" ∧
    documents_uploaded report = 2 ∧
    required_documents report = 7 ∧
    issues_found report
    = [ {| document_name := "AoA_Acme.docx";
           r_section := "Jurisdiction Clause (Simulated)";
           r_issue := "Jurisdiction clause does not explicitly specify 'ADGM Courts'.";
           r_severity := "High";
           r_suggestion := "Update the jurisdiction clause to 'ADGM Courts' to comply with ADGM regulations." |};
        {| document_name := "Board_Resolution_Acme.docx";
           r_section := "Signatory Section (Simulated)";
           r_issue := "Missing date on the signatory page.";
           r_severity := "Medium";
           r_suggestion := "Ensure all signatory fields, including the date, are properly filled out." |} ].
Proof.
  destruct (C4_batch_report scenario_files sample_world) as [Hret Hprops].
  destruct Hret as ([[summary report] paths] & w' & H);
    [discriminate|apply scenario_ready|].
  destruct (Hprops _ _ _ _ H) as (_ & Hp & Hu & Hr & _ & Hi).
  exists summary, report, paths, w'. rewrite Hi.
  split; [exact H|]. split; [exact Hp|]. split; [exact Hu|]. split; [exact Hr|].
  reflexivity.
Defined.

(** C5. On an empty list of files the operation raises the error and
    returns nothing; the world is as it was: no directory made, no file
    written, no progress reported. *)
Theorem C5_no_input (w : world) :
  fst (analyze_documents [] w)
  = Raises (GrError "Please upload at least one document.") ∧
  (∀ summary report paths,
     fst (analyze_documents [] w) ≠ Returns (summary, report, paths)) ∧
  snd (analyze_documents [] w) = w ∧
  fs (snd (analyze_documents [] w)) = fs w ∧
  dirs (snd (analyze_documents [] w)) = dirs w ∧
  progress_log (snd (analyze_documents [] w)) = progress_log w.
Proof.
  cbn [analyze_documents fst snd].
  split; [reflexivity|]. split; [|done].
  intros summary report paths. discriminate.
Qed.

(** ** The checklist at the end of the loop *)

Lemma simplified_keys_spec (category key : string) :
  (category, key) ∈ simplified_keys →
  category ∈ required_categories ∧ simplified_key category = key.
Proof.
  unfold simplified_keys. intros H.
  repeat (apply elem_of_cons in H as [[= -> ->]|H];
          [split; [in_list|reflexivity]|]).
  by apply elem_of_nil in H.
Qed.

Lemma split_head_before (c : ascii) (before rest : string) :
  has_char c before = false →
  Str.split_head c (before +:+ String c rest) = before.
Proof.
  induction before as [|a before IH].
  - intros _. change (Str.split_head c (String c rest) = "").
    cbn. by rewrite Ascii.eqb_refl.
  - rewrite StrFacts.app_cons. cbn.
    destruct (Ascii.eqb a c); [done|]. cbn. intros H. by rewrite IH.
Qed.

Lemma split_head_absent (c : ascii) (s : string) :
  has_char c s = false → Str.split_head c s = s.
Proof.
  induction s as [|a s IH]; cbn; [done|].
  destruct (Ascii.eqb a c); [done|]. cbn. intros H. by rewrite IH.
Qed.

Lemma fold_update_mark (names : list string) (d : checklist) :
  NoDup (dict_keys d) →
  fold_left (fun d nm => update_checklist nm d) names d
  = mark (fun k => satisfied k names) d.
Proof.
  revert d. induction names as [|nm names IH]; intros d Hd; cbn [fold_left].
  - symmetry. by apply mark_none.
  - rewrite IH.
    + rewrite update_checklist_mark by done. by rewrite mark_mark.
    + by rewrite update_checklist_mark, mark_keys.
Qed.

Lemma checklist_of_mark (names : list string) :
  checklist_of names = mark (fun k => satisfied k names) initial_checklist.
Proof.
  apply fold_update_mark. change (NoDup (dict_keys initial_checklist)).
  rewrite initial_checklist_keys. apply required_categories_NoDup.
Qed.

Lemma checklist_of_flag (names : list string) (category : string) :
  category ∈ required_categories →
  dict_get category (checklist_of names) = Some (satisfied category names).
Proof.
  intros Hc. rewrite checklist_of_mark, dict_get_mark.
  rewrite <-initial_checklist_keys in Hc.
  assert (dict_get category initial_checklist = Some false) as ->; [|done].
  unfold initial_checklist in *. cbn in Hc.
  repeat (apply elem_of_cons in Hc as [->|Hc]; [reflexivity|]).
  by apply elem_of_nil in Hc.
Qed.

Lemma checklist_of_keeps (names more : list string) (category : string) :
  dict_get category (checklist_of names) = Some true →
  dict_get category (checklist_of (names ++ more)) = Some true.
Proof.
  unfold checklist_of. rewrite fold_left_app.
  generalize (fold_left (fun d nm => update_checklist nm d) names initial_checklist).
  induction more as [|nm more IH]; intros d Hd; [done|].
  cbn [fold_left]. apply IH. by apply update_checklist_keeps.
Qed.

(** C3. The checklist that the loop computes for a batch depends on the
    base names only.  The flag of each of the seven categories is true
    exactly when its simplified key occurs, letter case aside, in the base
    name of some uploaded file; the simplified key is the text of the
    category before its first parenthesis, without surrounding white
    space, in lower case: for "Articles of Association (AoA)" it is
    "articles of association".  The checklist is a function of the set of
    base names: it depends neither on the order nor on the multiplicity of
    the files.  One file name can satisfy two categories, and a flag that
    is set is still set after any further files.  A run whose loop goes
    through ends with this checklist. *)
Theorem C3_checklist_reconciliation (files : list file_handle) (w : world) :
  let names := map (fun f => Path.basename (name f)) files in
  (∀ st w1,
     state_after (length files) files w = (Returns st, w1) →
     incorporation_checklist st = checklist_of names) ∧
  dict_keys (checklist_of names) = map fst simplified_keys ∧
  (∀ category key, (category, key) ∈ simplified_keys →
     (dict_get category (checklist_of names) = Some true
      ↔ ∃ f, f ∈ files ∧
             Str.CaseInsensitiveSubstring key (Path.basename (name f))) ∧
     (dict_get category (checklist_of names) = Some true ∨
      dict_get category (checklist_of names) = Some false)) ∧
  (∀ before rest,
     has_char "("%char before = false →
     simplified_key (before +:+ String "("%char rest) = Str.lower (Str.strip before)) ∧
  (∀ category,
     has_char "("%char category = false →
     simplified_key category = Str.lower (Str.strip category)) ∧
  (∀ names',
     (∀ nm, nm ∈ names ↔ nm ∈ names') → checklist_of names' = checklist_of names) ∧
  (∀ names', names ≡ₚ names' → checklist_of names' = checklist_of names) ∧
  (dict_get "Articles of Association (AoA)"
     (checklist_of ["Articles of Association and Register of Members and Directors.docx"])
   = Some true ∧
   dict_get "Register of Members and Directors"
     (checklist_of ["Articles of Association and Register of Members and Directors.docx"])
   = Some true ∧
   dict_get "UBO Declaration Form"
     (checklist_of ["Articles of Association and Register of Members and Directors.docx"])
   = Some false) ∧
  (∀ more category,
     dict_get category (checklist_of names) = Some true →
     dict_get category (checklist_of (names ++ more)) = Some true) ∧
  (∀ total i further st0 st' w0 w0' category,
     for_each_file total i further st0 w0 = (Returns st', w0') →
     dict_get category (incorporation_checklist st0) = Some true →
     dict_get category (incorporation_checklist st') = Some true).
Proof.
  intros names.
  assert (∀ names',
     (∀ nm, nm ∈ names ↔ nm ∈ names') → checklist_of names' = checklist_of names)
    as Hset.
  { intros names' Hsame. rewrite !checklist_of_mark.
    apply mark_ext. intros k _. symmetry. by apply satisfied_same_names. }
  split; [|split; [|split; [|split; [|split; [|split; [|split; [|split; [|split]]]]]]]].
  - intros st w1 Hrun. apply state_after_returns in Hrun as (-> & _ & _).
    rewrite state_of_initial, checklist_of_mark. reflexivity.
  - rewrite checklist_of_mark. by rewrite mark_keys.
  - intros category key [Hc <-]%simplified_keys_spec.
    rewrite checklist_of_flag by done. split.
    + split.
      * intros [= H]. apply satisfied_spec in H as (nm & Hin & H).
        apply list_elem_of_fmap in Hin as (f & -> & Hf). by exists f.
      * intros (f & Hf & H). f_equal. apply satisfied_spec.
        exists (Path.basename (name f)). split; [|done].
        apply list_elem_of_fmap. by exists f.
    + destruct (satisfied _ _); auto.
  - intros before rest H. unfold simplified_key. by rewrite split_head_before.
  - intros category H. unfold simplified_key. by rewrite split_head_absent.
  - exact Hset.
  - intros names' Hperm. apply Hset. intros nm. by rewrite Hperm.
  - rewrite !checklist_of_flag by in_list. done.
  - intros more category. apply checklist_of_keeps.
  - intros total i further st0 st' w0 w0' category Hloop.
    apply loop_returns in Hloop as [-> _]. apply state_of_checklist_keeps.
Qed.

Lemma C3_checklist_reconciliation_witness :
  state_after 1 [articles_file] empty_world
  = (Returns (state_of [articles_file] initial_state),
     loop_world 1 0 [articles_file] (entered empty_world)) ∧
  dict_get "Articles of Association (AoA)"
    (incorporation_checklist (state_of [articles_file] initial_state))
  = Some true ∧
  simplified_key "Articles of Association (AoA)" = "articles of association".
Proof.
  assert (state_after 1 [articles_file] empty_world
          = (Returns (state_of [articles_file] initial_state),
             loop_world 1 0 [articles_file] (entered empty_world))) as Hrun.
  { apply (state_after_ready [articles_file]). apply empty_world_ready.
    intros f Hf. apply list_elem_of_singleton in Hf as ->. reflexivity. }
  pose proof (C3_checklist_reconciliation [articles_file] empty_world)
    as (Hfinal & _ & Hflag & Hkey & _).
  split; [exact Hrun|]. split.
  - rewrite (Hfinal _ _ Hrun).
    apply (Hflag "Articles of Association (AoA)" "articles of association").
    + in_list.
    + exists articles_file. split; [in_list|].
      exists "Articles of Association".
      split; [by exists "", " - Acme.docx"|reflexivity].
  - apply (Hkey "Articles of Association " "AoA)"). reflexivity.
Defined.

(** ** The two-file scenario *)

(** The scenario does not report the Memorandum as the missing document;
    and where the uploaded Articles are a document without the styles
    "Heading 2" and "Intense Quote", it reports nothing at all. *)
Lemma C2_scenario_missing_is_not_memorandum :
  (¬ ∃ summary report paths w',
       analyze_documents scenario_files sample_world
       = (Returns (summary, report, paths), w') ∧
       missing_document report = "Memorandum of Association (MoA/MoU)") ∧
  (∃ summary report paths w',
       analyze_documents scenario_files sample_world
       = (Returns (summary, report, paths), w') ∧
       missing_document report = "Articles of Association (AoA)") ∧
  fst (analyze_documents scenario_files plain_world) = Raises KeyError.
Proof.
  split; [|split].
  - intros (summary & report & paths & w' & H & Hm).
    apply analyze_documents_returns in H as (_ & _ & _ & -> & _).
    rewrite (missing_document_final scenario_files) in Hm.
    vm_compute in Hm. discriminate.
  - rewrite analyze_documents_ready by (discriminate || apply scenario_ready).
    eexists _, _, _, _. split; [reflexivity|].
    rewrite (missing_document_final scenario_files). reflexivity.
  - by vm_compute.
Qed.

(** C2 (amended). On two files named "AoA_Acme.docx" and
    "Board_Resolution_Acme.docx", a run that returns reports "2 out of 7"
    in the summary, "Articles of Association (AoA)" as the missing document
    and two issues, the first of severity High and the second of severity
    Medium; it returns the two output paths, and at the end each of them
    denotes a document that ends with a comment section: the one of the
    second file ends with the section of the signatory issue, and the one
    of the first file with the section of the jurisdiction issue unless
    both paths denote the same file.  The run returns whenever the
    documents have the styles of the comments and the output paths can be
    written. *)
Theorem C2_scenario (f1 f2 : file_handle) (w : world) :
  Path.basename (name f1) = "AoA_Acme.docx" →
  Path.basename (name f2) = "Board_Resolution_Acme.docx" →
  (ready [f1; f2] w →
   ∃ result w', analyze_documents [f1; f2] w = (Returns result, w')) ∧
  ∀ summary report paths w',
    analyze_documents [f1; f2] w = (Returns (summary, report, paths), w') →
    Str.Substring "You have uploaded 2 out of 7 required documents." summary ∧
    missing_document report = "Articles of Association (AoA)" ∧
    (∃ i1 i2, issues_found report = [i1; i2] ∧
              document_name i1 = "AoA_Acme.docx" ∧ r_severity i1 = "High" ∧
              document_name i2 = "Board_Resolution_Acme.docx" ∧ r_severity i2 = "Medium") ∧
    paths = [ "reviewed_docs/reviewed_AoA_Acme.docx";
              "reviewed_docs/reviewed_Board_Resolution_Acme.docx" ] ∧
    (∃ d base,
       fs w' !! resolve w "reviewed_docs/reviewed_Board_Resolution_Acme.docx"
       = Some (Docx d) ∧
       body d = base ++ comment_section [signatory_issue]) ∧
    (resolve w "reviewed_docs/reviewed_AoA_Acme.docx"
     ≠ resolve w "reviewed_docs/reviewed_Board_Resolution_Acme.docx" →
     ∃ d base,
       fs w' !! resolve w "reviewed_docs/reviewed_AoA_Acme.docx" = Some (Docx d) ∧
       body d = base ++ comment_section [jurisdiction_issue]) ∧
    (∀ p, p ∈ paths →
       ∃ d base i,
         fs w' !! resolve w p = Some (Docx d) ∧
         body d = base ++ comment_section [i] ∧ comment_section [i] ≠ []).
Proof.
  intros H1 H2. split; [by apply ready_returns|].
  intros summary report paths w' H.
  apply analyze_documents_returns in H as (_ & _ & -> & -> & -> & ->).
  cbn [with_progress_log fs].
  destruct (entered_static w) as (_ & Hres & _).
  assert (fs (loop_world 2 0 [f1; f2] (entered w))
            !! resolve w "reviewed_docs/reviewed_Board_Resolution_Acme.docx"
          = Some (Docx (reviewed_document (loop_world 2 0 [f1] (entered w)) f2)))
    as Hsecond.
  { pose proof (loop_world_last 2 [f1] 0 (entered w) f2 []) as Hl.
    unfold target, doc_name_of in Hl. rewrite H2, Hres in Hl.
    apply Hl. intros g Hg. inversion Hg. }
  assert (body (reviewed_document (loop_world 2 0 [f1] (entered w)) f2)
          = body (base_document (loop_world 2 0 [f1] (entered w)) f2)
            ++ comment_section [signatory_issue]) as Hbody2.
  { unfold reviewed_document, doc_name_of. by rewrite H2. }
  assert (body (reviewed_document (entered w) f1)
          = body (base_document (entered w) f1)
            ++ comment_section [jurisdiction_issue]) as Hbody1.
  { unfold reviewed_document, doc_name_of. by rewrite H1. }
  assert (resolve w "reviewed_docs/reviewed_AoA_Acme.docx"
          ≠ resolve w "reviewed_docs/reviewed_Board_Resolution_Acme.docx" →
          fs (loop_world 2 0 [f1; f2] (entered w))
            !! resolve w "reviewed_docs/reviewed_AoA_Acme.docx"
          = Some (Docx (reviewed_document (entered w) f1))) as Hfirst.
  { intros Hne.
    pose proof (loop_world_last 2 [] 0 (entered w) f1 [f2]) as Hl.
    unfold target, doc_name_of in Hl. rewrite H1, Hres in Hl.
    apply Hl. intros g Hg. apply list_elem_of_singleton in Hg as ->.
    rewrite H2. intros E. apply Hne. symmetry. exact E. }
  split; [|split; [|split; [|split; [|split; [|split]]]]].
  - rewrite state_of_initial. cbn [incorporation_checklist map].
    unfold doc_name_of. rewrite H1, H2.
    apply StrFacts.contains_spec. by vm_compute.
  - rewrite (missing_document_final [f1; f2]). cbn [map].
    unfold doc_name_of. rewrite H1, H2. reflexivity.
  - unfold build_report. cbn [issues_found]. rewrite state_of_issues.
    cbn [flat_map initial_state all_issues app]. unfold issues_of_file, doc_name_of.
    rewrite H1, H2. eexists _, _. split; [reflexivity|]. by repeat split.
  - cbn [map]. unfold doc_name_of. by rewrite H1, H2.
  - eexists _, _. split; [exact Hsecond|exact Hbody2].
  - intros Hne. eexists _, _. split; [by apply Hfirst|exact Hbody1].
  - intros p Hp. cbn [map] in Hp. unfold doc_name_of in Hp. rewrite H1, H2 in Hp.
    apply elem_of_cons in Hp as [->|Hp].
    + change (reviewed_path "AoA_Acme.docx")
        with "reviewed_docs/reviewed_AoA_Acme.docx".
      destruct (decide (resolve w "reviewed_docs/reviewed_AoA_Acme.docx"
                        = resolve w "reviewed_docs/reviewed_Board_Resolution_Acme.docx"))
        as [->|Hne].
      * eexists _, _, _. split; [exact Hsecond|]. split; [exact Hbody2|done].
      * eexists _, _, _. split; [by apply Hfirst|]. split; [exact Hbody1|done].
    + apply list_elem_of_singleton in Hp as ->.
      eexists _, _, _. split; [exact Hsecond|]. split; [exact Hbody2|done].
Qed.

Lemma C2_scenario_witness :
  ∃ summary report w',
    analyze_documents scenario_files sample_world
    = (Returns (summary, report,
                [ "reviewed_docs/reviewed_AoA_Acme.docx";
                  "reviewed_docs/reviewed_Board_Resolution_Acme.docx" ]), w') ∧
    missing_document report = "Articles of Association (AoA)" ∧
    ∃ d base,
      fs w' !! "/app/reviewed_docs/reviewed_Board_Resolution_Acme.docx" = Some (Docx d) ∧
      body d = base ++ comment_section [signatory_issue].
Proof.
  destruct (C2_scenario (mkFile "/uploads/1/AoA_Acme.docx")
              (mkFile "/uploads/2/Board_Resolution_Acme.docx") sample_world)
    as [Hret Hprops]; [reflexivity|reflexivity|].
  destruct (Hret scenario_ready) as ([[summary report] paths] & w' & H).
  destruct (Hprops _ _ _ _ H) as (_ & Hm & _ & Hp & Hd & _).
  exists summary, report, w'. rewrite <-Hp.
  split; [exact H|]. split; [exact Hm|exact Hd].
Defined.

(** ** Runs that raise *)

Lemma analyze_documents_unfold (files : list file_handle) (w : world) :
  files ≠ [] →
  analyze_documents files w
  = match state_after (length files) files w with
    | (Returns st, w1) =>
        (Returns (checklist_summary (length files) (incorporation_checklist st),
                  build_report (length files) st,
                  reviewed_file_paths st),
         with_progress_log (progress_log w1 ++ [Progress 1 1 "Generating final report..."]) w1)
    | (Raises e, w1) => (Raises e, w1)
    end.
Proof.
  intros Hne. destruct files as [|f files]; [done|].
  unfold analyze_documents, bind.
  change (run_loop (f :: files)) with (state_after (length (f :: files)) (f :: files)).
  by destruct (state_after _ _ w) as [[st|e] w1].
Qed.

Lemma state_after_prefix (total : nat) (done rest : list file_handle)
    (st : loop_state) (w w1 : world) :
  state_after total (done ++ rest) w = (Returns st, w1) →
  state_after total done w
  = (Returns (state_of done initial_state), loop_world total 0 done (entered w)).
Proof.
  unfold state_after, bind.
  destruct (ensure_output_dir w) as [[[]|e] w0] eqn:He; [|done].
  apply ensure_output_dir_returns in He as [-> _].
  intros H. by apply loop_returns_split in H as [-> _].
Qed.

(** An exception in the iteration of one file is the result of the whole
    operation: the files after it are not processed and nothing is
    returned. *)
Lemma analyze_documents_raises (pre post : list file_handle) (f : file_handle)
    (st1 : loop_state) (w w1 w2 : world) (e : error) :
  state_after (length (pre ++ f :: post)) pre w = (Returns st1, w1) →
  process_file (length (pre ++ f :: post)) (length pre) f st1 w1 = (Raises e, w2) →
  analyze_documents (pre ++ f :: post) w = (Raises e, w2).
Proof.
  intros Hpre Hstep.
  rewrite analyze_documents_unfold by (by destruct pre).
  unfold state_after, bind in *.
  destruct (ensure_output_dir w) as [[[]|e0] w0]; [|done].
  rewrite for_each_file_app, Hpre. cbn [for_each_file Nat.add]. unfold bind.
  by rewrite Hstep.
Qed.

(** Worlds like the samples: paths are taken from [/app], nothing is
    denied, and the only directory, if any, is the output directory. *)
Lemma under_app_ready (files : list file_handle) (w : world) :
  resolve w = under_app →
  denied w = (fun _ => false) →
  template_styles w = word_styles →
  (∀ id, id ∈ dirs w → id = "/app/reviewed_docs") →
  fs w !! "/app/reviewed_docs" = None →
  map_Forall (fun _ c => styled c = true) (fs w) →
  all_xml_names files = true →
  ready files w.
Proof.
  intros Hres Hden Htpl Hdirs Hnofile Hstyled Hxml.
  split; [|split; [|split]].
  - unfold comment_styles, blank_document. cbn [styles]. by rewrite Htpl.
  - intros id d Hd. apply Hstyled in Hd. cbn [styled] in Hd.
    apply andb_true_iff in Hd as [H1 H2]. unfold is_paragraph_style in *.
    split.
    + by destruct (styles d !! "Heading 2") as [[]|].
    + by destruct (styles d !! "Intense Quote") as [[]|].
  - unfold path_exists. rewrite Hres.
    change (under_app output_dir) with "/app/reviewed_docs".
    rewrite Hnofile. case_bool_decide as Hd; cbn [orb].
    + done.
    + rewrite bool_decide_eq_false_2 by (by intros [? ?]). by rewrite Hden.
  - intros f Hf.
    assert (xml_text (doc_name_of f) = true) as Hname.
    { induction files as [|g files IH]; [inversion Hf|].
      cbn [all_xml_names] in Hxml. apply andb_true_iff in Hxml as [Hg Hrest].
      apply elem_of_cons in Hf as [->|Hf]; [done|by apply IH]. }
    assert (target w (doc_name_of f) ≠ "/app/reviewed_docs") as Hne.
    { unfold target. rewrite Hres, reviewed_path_eq. cbn. discriminate. }
    split; [done|]. split; [|split].
    + intros Hin. by apply Hdirs in Hin.
    + by rewrite Hres.
    + by rewrite Hden.
Qed.

(** ** Reviewed documents *)




(** ** Parse failures *)

(** C6. The handler of a parse failure writes the base name of the file
    into the placeholder paragraph.  When the name holds a character that
    XML text cannot hold (a control character other than tab, line feed
    and carriage return), the paragraph raises inside the handler, and the
    exception leaves the operation: nothing is returned, the file and the
    files after it get no reviewed document, and the store is as the files
    before it left it. *)
Theorem C6_parse_failure_can_abort
    (pre post : list file_handle) (f : file_handle)
    (st1 : loop_state) (w w1 : world) :
  let files := pre ++ f :: post in
  state_after (length files) pre w = (Returns st1, w1) →
  open_document w1 (name f) = None →
  xml_text (Path.basename (name f)) = false →
  analyze_documents files w
  = (Raises ValueError,
     with_progress_log
       (progress_log w1
        ++ [Progress (length pre) (length files)
              ("Analyzing " +:+ Path.basename (name f) +:+ "...")])
       w1) ∧
  (∀ result w', analyze_documents files w ≠ (Returns result, w')) ∧
  fs (snd (analyze_documents files w)) = fs w1 ∧
  fst (load_document f w1) = Raises ValueError.
Proof.
  intros files Hpre Hopen Hxml.
  assert (fst (load_document f w1) = Raises ValueError) as Hload.
  { rewrite base_document_outcome, Hopen. unfold doc_name_of. by rewrite Hxml. }
  assert (analyze_documents files w
          = (Raises ValueError,
             with_progress_log
               (progress_log w1 ++ [analyzing_event (length files) (length pre) f])
               w1)) as Hrun.
  { apply (analyze_documents_raises pre post f st1 w w1); [exact Hpre|].
    rewrite process_file_unfold. by rewrite Hload. }
  split; [exact Hrun|]. split; [|split; [|exact Hload]].
  - intros result w'. by rewrite Hrun.
  - by rewrite Hrun.
Qed.

Lemma C6_parse_failure_can_abort_witness :
  open_document (entered empty_world) (name control_character_file) = None ∧
  Path.basename (name control_character_file)
  = "ubo" +:+ String "031"%char ".docx" ∧
  fst (analyze_documents
         [control_character_file; mkFile "/uploads/1/AoA_Acme.docx"] empty_world)
  = Raises ValueError ∧
  fs (snd (analyze_documents
             [control_character_file; mkFile "/uploads/1/AoA_Acme.docx"] empty_world))
  = ∅.
Proof.
  destruct (C6_parse_failure_can_abort [] [mkFile "/uploads/1/AoA_Acme.docx"]
              control_character_file initial_state empty_world (entered empty_world))
    as (Hrun & _ & Hfs & _); [reflexivity|reflexivity|reflexivity|].
  split; [reflexivity|]. split; [reflexivity|]. split.
  - cbn [app] in Hrun. by rewrite Hrun.
  - exact Hfs.
Defined.

(** ** Output paths *)

(** Two files of one name share an output path, which is therefore not
    fresh, and leave one reviewed document for two inputs; an input that is
    the file the output path of another file denotes is overwritten; and
    where the name of the output directory is taken by a regular file, no
    directory is made and the run raises without a reviewed document. *)
Lemma C8_output_paths_are_not_fresh :
  (∃ summary report paths w',
     analyze_documents same_name_files empty_world
     = (Returns (summary, report, paths), w') ∧
     ¬ fresh_paths empty_world paths ∧
     size (fs w') = 1) ∧
  (∃ summary report paths w',
     analyze_documents overlapping_files overlapping_world
     = (Returns (summary, report, paths), w') ∧
     resolve overlapping_world "/app/reviewed_docs/reviewed_notes.docx"
     = resolve overlapping_world "reviewed_docs/reviewed_notes.docx" ∧
     fs w' !! "/app/reviewed_docs/reviewed_notes.docx"
     ≠ fs overlapping_world !! "/app/reviewed_docs/reviewed_notes.docx") ∧
  (path_exists output_dir blocked_world = true ∧
   fst (analyze_documents [mkFile "/uploads/1/notes.docx"] blocked_world)
   = Raises OSError ∧
   dirs (snd (analyze_documents [mkFile "/uploads/1/notes.docx"] blocked_world)) = ∅).
Proof.
  split; [|split; [|by vm_compute]].
  - rewrite analyze_documents_ready;
      [|discriminate|by apply empty_world_ready, Forall_forall; repeat constructor].
    eexists _, _, _, _. split; [reflexivity|]. split.
    + intros [Hnd _]. apply NoDup_cons in Hnd as [Hnotin _]. apply Hnotin. left.
    + by vm_compute.
  - rewrite analyze_documents_ready; [|discriminate|].
    + eexists _, _, _, _. split; [reflexivity|]. split; [reflexivity|].
      vm_compute. discriminate.
    + apply under_app_ready; try reflexivity.
      * intros id Hid. cbn in Hid. by apply elem_of_singleton in Hid.
      * apply (bool_decide_unpack _). by vm_compute.
Qed.

(** C8 (amended). A batch that returns gives one output path per input
    file, in processing order; each path is the output directory joined
    with the marker "reviewed_" followed by the base name of the input.
    The output directory is a directory afterwards, made when nothing was
    there.  Each returned path denotes a reviewed document, every file that
    no returned path denotes holds what it held before, and so does an
    input that no returned path denotes.  A non-empty batch returns
    whenever the documents and the operating system allow the run to go
    through. *)
Theorem C8_one_output_path_per_file (files : list file_handle) (w : world) :
  (files ≠ [] → ready files w →
   ∃ result w', analyze_documents files w = (Returns result, w')) ∧
  ∀ summary report paths w',
    analyze_documents files w = (Returns (summary, report, paths), w') →
    paths = map (fun f => "reviewed_docs/reviewed_" +:+ Path.basename (name f)) files ∧
    length paths = length files ∧
    resolve w' = resolve w ∧
    resolve w "reviewed_docs" ∈ dirs w' ∧
    (∀ id, id ∈ dirs w'
           ↔ id ∈ dirs w
             ∨ (path_exists "reviewed_docs" w = false ∧ id = resolve w "reviewed_docs")) ∧
    (∀ p, p ∈ paths → ∃ d, fs w' !! resolve w p = Some (Docx d)) ∧
    (∀ id, id ∉ map (resolve w) paths → fs w' !! id = fs w !! id) ∧
    (∀ f, f ∈ files →
          resolve w (name f) ∉ map (resolve w) paths →
          fs w' !! resolve w (name f) = fs w !! resolve w (name f)).
Proof.
  split; [apply ready_returns|].
  intros summary report paths w' H.
  apply analyze_documents_returns in H as (Hne & Hloop & _ & _ & -> & ->).
  cbn [with_progress_log fs dirs resolve].
  destruct (entered_static w) as (Hfs & Hres & _).
  destruct (loop_world_static (length files) files 0 (entered w)) as (Hdirs & Hres' & _).
  assert (map (resolve w) (map (fun f => reviewed_path (doc_name_of f)) files)
          = map (fun f => target (entered w) (doc_name_of f)) files) as Htargets.
  { rewrite map_map. apply map_ext. intros f. by rewrite entered_target. }
  assert (∀ id, id ∉ map (resolve w) (map (fun f => reviewed_path (doc_name_of f)) files) →
                fs (loop_world (length files) 0 files (entered w)) !! id = fs w !! id)
    as Hframe.
  { intros id Hid. rewrite Htargets in Hid.
    rewrite loop_world_other by done. by rewrite Hfs. }
  split; [done|]. split; [by rewrite length_map|].
  split; [by rewrite Hres', Hres|].
  split; [|split; [|split; [|split]]].
  - rewrite Hdirs, <-Hres.
    apply state_after_returns in Hloop as (_ & _ & Hloop).
    destruct files as [|f files]; [done|].
    by apply loop_returns_dir in Hloop.
  - intros id. rewrite Hdirs. apply entered_dirs.
  - intros p Hp. apply loop_world_written. rewrite <-Htargets.
    apply list_elem_of_fmap. by exists p.
  - exact Hframe.
  - intros f _. apply Hframe.
Qed.

Lemma C8_one_output_path_per_file_witness :
  ∃ summary report w',
    analyze_documents scenario_files sample_world
    = (Returns (summary, report,
                [ "reviewed_docs/reviewed_AoA_Acme.docx";
                  "reviewed_docs/reviewed_Board_Resolution_Acme.docx" ]), w') ∧
    "/app/reviewed_docs" ∈ dirs w' ∧
    fs w' !! "/uploads/1/AoA_Acme.docx" = Some (Docx sample_document).
Proof.
  destruct (C8_one_output_path_per_file scenario_files sample_world) as [Hret Hprops].
  destruct Hret as ([[summary report] paths] & w' & H);
    [discriminate|apply scenario_ready|].
  destruct (Hprops _ _ _ _ H) as (Hp & _ & _ & Hd & _ & _ & _ & Hin).
  subst paths. exists summary, report, w'. split; [exact H|]. split; [exact Hd|].
  etrans.
  - apply (Hin (mkFile "/uploads/1/AoA_Acme.docx")); [in_list|].
    intros Hmem. cbn in Hmem.
    repeat (apply elem_of_cons in Hmem as [Hmem|Hmem]; [discriminate Hmem|]).
    inversion Hmem.
  - by vm_compute.
Defined.

(** C10. The output path of a file is the fixed directory joined with the
    fixed prefix and the base name, so two files of a batch with equal base
    names have the same output path.  In a run that returns, the returned
    sequence of paths holds that path at both positions, and the save of
    the later file replaces the reviewed document of the earlier one: the
    file the path denotes holds the document of the earlier file after its
    iteration (and until the later file, unless a file in between is saved
    to the same file), and the document of the later file after the
    iteration of the later one and to the end of the run, unless a further
    file is saved to the same file. *)
Theorem C10_equal_base_names_collide
    (pre mid post : list file_handle) (f1 f2 : file_handle) (w : world) :
  Path.basename (name f1) = Path.basename (name f2) →
  let files := pre ++ f1 :: mid ++ f2 :: post in
  let total := length files in
  let p := "reviewed_docs/reviewed_" +:+ Path.basename (name f1) in
  let before1 := loop_world total 0 pre (entered w) in
  let before2 := loop_world total 0 (pre ++ f1 :: mid) (entered w) in
  Path.join output_dir ("reviewed_" +:+ Path.basename (name f1)) = p ∧
  Path.join output_dir ("reviewed_" +:+ Path.basename (name f2)) = p ∧
  ∀ summary report paths w',
    analyze_documents files w = (Returns (summary, report, paths), w') →
    paths !! length pre = Some p ∧
    paths !! (length pre + S (length mid)) = Some p ∧
    (∃ st1 st2 st3 st4 after1 after2,
       state_after total pre w = (Returns st1, before1) ∧
       state_after total (pre ++ [f1]) w = (Returns st2, after1) ∧
       state_after total (pre ++ f1 :: mid) w = (Returns st3, before2) ∧
       state_after total (pre ++ f1 :: mid ++ [f2]) w = (Returns st4, after2) ∧
       fs after1 !! resolve w p = Some (Docx (reviewed_document before1 f1)) ∧
       ((∀ g, g ∈ mid →
              resolve w ("reviewed_docs/reviewed_" +:+ Path.basename (name g))
              ≠ resolve w p) →
        fs before2 !! resolve w p = Some (Docx (reviewed_document before1 f1))) ∧
       fs after2 !! resolve w p = Some (Docx (reviewed_document before2 f2))) ∧
    ((∀ g, g ∈ post →
           resolve w ("reviewed_docs/reviewed_" +:+ Path.basename (name g))
           ≠ resolve w p) →
     fs w' !! resolve w p = Some (Docx (reviewed_document before2 f2))).
Proof.
  intros Hsame files total p before1 before2.
  assert (reviewed_path (doc_name_of f1) = p) as Hp1 by reflexivity.
  assert (reviewed_path (doc_name_of f2) = p) as Hp2
    by (unfold doc_name_of; by rewrite <-Hsame).
  split; [done|]. split; [exact Hp2|].
  intros summary report paths w' H.
  apply analyze_documents_returns in H as (_ & Hloop & _ & _ & -> & ->).
  fold total in Hloop. cbn [with_progress_log fs].
  destruct (entered_static w) as (_ & Hres & _).
  assert (∀ f, target (entered w) (doc_name_of f)
               = resolve w ("reviewed_docs/reviewed_" +:+ Path.basename (name f)))
    as Htarget by (intros f; unfold target; by rewrite Hres).
  assert (target (entered w) (doc_name_of f1) = resolve w p) as Ht1 by apply Htarget.
  assert (target (entered w) (doc_name_of f2) = resolve w p) as Ht2
    by (rewrite Htarget; by rewrite <-Hsame).
  assert (∀ rest : list file_handle,
            (∀ g, g ∈ rest →
                  resolve w ("reviewed_docs/reviewed_" +:+ Path.basename (name g))
                  ≠ resolve w p) →
            ∀ f, target (entered w) (doc_name_of f) = resolve w p →
                 ∀ g, g ∈ rest →
                      target (entered w) (doc_name_of g)
                      ≠ target (entered w) (doc_name_of f)) as Hother.
  { intros rest Hrest f Hf g Hg. rewrite Hf, Htarget. by apply Hrest. }
  assert (files = (pre ++ f1 :: mid) ++ f2 :: post) as Hfiles
    by (unfold files; by rewrite <-app_assoc).
  split; [|split; [|split]].
  - unfold files. rewrite map_app. cbn [map]. rewrite Hp1.
    apply list_lookup_middle. by rewrite length_map.
  - rewrite Hfiles, map_app. cbn [map]. rewrite Hp2.
    apply list_lookup_middle. rewrite length_map, length_app. done.
  - eexists _, _, _, _, _, _.
    split; [|split; [|split; [|split; [|split; [|split]]]]].
    + apply (state_after_prefix total pre (f1 :: mid ++ f2 :: post) _ w _ Hloop).
    + eapply (state_after_prefix total (pre ++ [f1]) (mid ++ f2 :: post) _ w).
      rewrite <-app_assoc. exact Hloop.
    + eapply (state_after_prefix total (pre ++ f1 :: mid) (f2 :: post) _ w).
      rewrite <-Hfiles. exact Hloop.
    + eapply (state_after_prefix total (pre ++ f1 :: mid ++ [f2]) post _ w).
      replace ((pre ++ f1 :: mid ++ [f2]) ++ post) with files; [exact Hloop|].
      unfold files. rewrite <-!app_assoc. cbn [app]. by rewrite <-app_assoc.
    + rewrite <-Ht1. apply (loop_world_last total pre 0 (entered w) f1 []).
      intros g Hg. inversion Hg.
    + intros Hmid. rewrite <-Ht1.
      apply (loop_world_last total pre 0 (entered w) f1 mid).
      by apply Hother.
    + rewrite <-Ht2.
      replace (pre ++ f1 :: mid ++ [f2]) with ((pre ++ f1 :: mid) ++ [f2])
        by (by rewrite <-app_assoc).
      apply (loop_world_last total (pre ++ f1 :: mid) 0 (entered w) f2 []).
      intros g Hg. inversion Hg.
  - intros Hpost. rewrite <-Ht2. fold total. rewrite Hfiles.
    apply (loop_world_last total (pre ++ f1 :: mid) 0 (entered w) f2 post).
    by apply Hother.
Qed.

Lemma C10_equal_base_names_collide_witness :
  ∃ summary report paths w',
    analyze_documents same_name_files sample_world
    = (Returns (summary, report, paths), w') ∧
    paths !! 0 = Some "reviewed_docs/reviewed_notes.docx" ∧
    paths !! 1 = Some "reviewed_docs/reviewed_notes.docx" ∧
    fs w' !! "/app/reviewed_docs/reviewed_notes.docx"
    = Some (Docx {| body := placeholder_body "notes.docx"
                            ++ comment_section [general_issue];
                    styles := word_styles |}).
Proof.
  destruct (ready_returns same_name_files sample_world)
    as ([[summary report] paths] & w' & H); [discriminate| |].
  - apply under_app_ready; try reflexivity.
    + intros id Hid. by apply elem_of_empty in Hid.
    + apply (bool_decide_unpack _). by vm_compute.
  - destruct (C10_equal_base_names_collide [] [] []
                (mkFile "/uploads/1/notes.docx") (mkFile "/uploads/2/notes.docx")
                sample_world)
      as (_ & _ & Hrun); [reflexivity|].
    destruct (Hrun _ _ _ _ H) as (H0 & H1 & _ & Hlast).
    exists summary, report, paths, w'.
    split; [exact H|]. split; [exact H0|]. split; [exact H1|].
    etrans; [apply Hlast|by vm_compute].
    intros g Hg. inversion Hg.
Defined.

(** * Further properties *)

(** ** Progress reports and the loop invariant *)

(** X1. A batch of n files that returns has made n + 1 progress calls,
    appended to the log in order: for the file at index i the fraction
    i / n with the description "Analyzing <base name>...", and at the end
    the fraction 1 with "Generating final report...".  The fractions of the
    files are below 1 and grow with the index. *)
Theorem X1_progress_reports (files : list file_handle) (w : world) :
  ∀ result w',
    analyze_documents files w = (Returns result, w') →
    progress_log w'
    = progress_log w
      ++ imap (fun i f =>
                 Progress i (length files)
                   ("Analyzing " +:+ Path.basename (name f) +:+ "..."))
           files
      ++ [Progress 1 1 "Generating final report..."] ∧
    length (progress_log w') = length (progress_log w) + length files + 1 ∧
    ∀ i e, progress_log w' !! (length (progress_log w) + i) = Some e →
           i < length files →
           numerator e = i ∧ denominator e = length files ∧
           numerator e < denominator e.
Proof.
  intros [[summary report] paths] w' H.
  apply analyze_documents_returns in H as (_ & _ & _ & _ & _ & ->).
  assert (progress_log
            (with_progress_log
               (progress_log (loop_world (length files) 0 files (entered w))
                ++ [Progress 1 1 "Generating final report..."])
               (loop_world (length files) 0 files (entered w)))
          = progress_log w
            ++ imap (fun i f => analyzing_event (length files) i f) files
            ++ [Progress 1 1 "Generating final report..."]) as Hlog.
  { cbn [with_progress_log progress_log]. rewrite loop_world_log, <-app_assoc.
    by destruct (entered_static w) as (_ & _ & _ & _ & ->). }
  split; [exact Hlog|]. rewrite Hlog. split.
  - rewrite !length_app, length_imap. cbn. lia.
  - intros i e He Hi.
    rewrite lookup_app_r, Nat.add_comm, Nat.add_sub in He by lia.
    rewrite lookup_app_l in He by (by rewrite length_imap).
    rewrite list_lookup_imap in He.
    destruct (files !! i) as [f|]; [|done].
    injection He as <-. cbn. done.
Qed.

Lemma X1_progress_reports_witness :
  ∃ result w',
    analyze_documents scenario_files sample_world = (Returns result, w') ∧
    progress_log w'
    = [ Progress 0 2 "Analyzing AoA_Acme.docx...";
        Progress 1 2 "Analyzing Board_Resolution_Acme.docx...";
        Progress 1 1 "Generating final report..." ].
Proof.
  destruct (ready_returns scenario_files sample_world) as (result & w' & H);
    [discriminate|apply scenario_ready|].
  destruct (X1_progress_reports scenario_files sample_world result w' H)
    as (Hlog & _).
  exists result, w'. split; [exact H|]. rewrite Hlog. reflexivity.
Defined.

(** X2. Loop invariant.  When the loop has gone through any number of
    files, the checklist has the seven categories in their declared order,
    each with the flag telling whether its key occurred in a name processed
    so far; the collected issues are those of the files processed, in
    order; and there is one reviewed path per file processed. *)
Theorem X2_loop_invariant (total : nat) (done : list file_handle)
    (st : loop_state) (w w1 : world) :
  state_after total done w = (Returns st, w1) →
  incorporation_checklist st
  = map (fun c => (c, satisfied c (map doc_name_of done))) required_categories ∧
  dict_keys (incorporation_checklist st) = required_categories ∧
  all_issues st = flat_map issues_of_file done ∧
  reviewed_file_paths st
  = map (fun f => "reviewed_docs/reviewed_" +:+ Path.basename (name f)) done.
Proof.
  intros H. apply state_after_returns in H as (-> & _ & _).
  rewrite state_of_initial.
  cbn [incorporation_checklist all_issues reviewed_file_paths].
  split; [reflexivity|]. split; [by rewrite mark_keys|]. done.
Qed.

Lemma X2_loop_invariant_witness :
  ∃ st w1,
    state_after 2 [mkFile "/uploads/1/AoA_Acme.docx"] sample_world = (Returns st, w1) ∧
    dict_keys (incorporation_checklist st) = required_categories ∧
    reviewed_file_paths st = ["reviewed_docs/reviewed_AoA_Acme.docx"].
Proof.
  pose proof (state_after_ready scenario_files sample_world scenario_ready) as Hrun.
  apply (state_after_prefix 2 [mkFile "/uploads/1/AoA_Acme.docx"]
           [mkFile "/uploads/2/Board_Resolution_Acme.docx"]) in Hrun.
  destruct (X2_loop_invariant _ _ _ _ _ Hrun) as (_ & Hkeys & _ & Hpaths).
  eexists _, _. split; [exact Hrun|]. split; [exact Hkeys|exact Hpaths].
Defined.

(** ** The summary *)

Lemma missing_docs_mark (names : list string) (d : checklist) :
  (∀ kv, kv ∈ d → snd kv = false) →
  missing_docs (mark (fun k => satisfied k names) d)
  = List.filter (fun k => negb (satisfied k names)) (dict_keys d).
Proof.
  unfold missing_docs, mark, dict_keys.
  induction d as [|[k v] d IH]; intros Hd; [done|].
  assert (v = false) as -> by (apply (Hd (k, v)); left).
  cbn [map List.filter fst snd orb].
  destruct (satisfied k names); cbn [negb map fst];
    rewrite IH by (intros kv Hkv; apply Hd; by right); done.
Qed.

Lemma filter_nil_none {A} (f : A → bool) (l : list A) (x : A) :
  List.filter f l = [] → x ∈ l → f x = false.
Proof.
  intros Hf Hx. destruct (f x) eqn:E; [|done].
  assert (In x (List.filter f l)) as Hin
    by (apply filter_In; split; [by apply list_elem_of_In|done]).
  by rewrite Hf in Hin.
Qed.

(** X3. In a run that returns, the summary and the report agree on the
    missing document.  The summary opens with the number of uploaded files
    "out of 7".  Either every category is satisfied, the report says "None"
    and the summary says that all required documents appear to be present;
    or the report names a required category that no file name satisfies,
    and the summary quotes that same category as the missing document. *)
Theorem X3_summary_agrees_with_report (files : list file_handle) (w : world) :
  ∀ summary report paths w',
    analyze_documents files w = (Returns (summary, report, paths), w') →
    (((∀ c, c ∈ required_categories → Satisfied c (map doc_name_of files)) ∧
      missing_document report = "None" ∧
      summary
      = "It appears you're trying to incorporate a company in ADGM. You have uploaded "
        +:+ Str.of_nat (length files) +:+ " out of 7 required documents."
        +:+ newline +:+ newline
        +:+ "All required documents for incorporation appear to be present.")
     ∨
     (∃ c, c ∈ required_categories ∧
           ¬ Satisfied c (map doc_name_of files) ∧
           missing_document report = c ∧
           summary
           = "It appears you're trying to incorporate a company in ADGM. You have uploaded "
             +:+ Str.of_nat (length files) +:+ " out of 7 required documents."
             +:+ newline +:+ newline
             +:+ "The missing document appears to be: '" +:+ c +:+ "'.")).
Proof.
  intros summary report paths w' H.
  apply analyze_documents_returns in H as (_ & _ & -> & -> & _).
  unfold checklist_summary, build_report. cbn [missing_document].
  rewrite state_of_initial. cbn [incorporation_checklist].
  rewrite missing_docs_mark by apply initial_flags_false.
  rewrite initial_checklist_keys.
  destruct (List.filter _ required_categories) as [|c rest] eqn:E.
  - left. split; [|split; reflexivity].
    intros c Hc. apply satisfied_spec.
    apply (filter_nil_none _ _ c E) in Hc. by destruct (satisfied c _).
  - right. exists c.
    assert (In c (List.filter (fun k => negb (satisfied k (map doc_name_of files)))
                    required_categories)) as Hin by (rewrite E; by left).
    apply filter_In in Hin as [Hc Hs].
    split; [by apply list_elem_of_In|]. split; [|split; reflexivity].
    rewrite <-satisfied_spec. by destruct (satisfied c _).
Qed.

Lemma X3_summary_agrees_with_report_witness :
  ∃ summary report paths w',
    analyze_documents scenario_files sample_world
    = (Returns (summary, report, paths), w') ∧
    Str.contains ("'" +:+ missing_document report +:+ "'") summary = true.
Proof.
  destruct (ready_returns scenario_files sample_world)
    as ([[summary report] paths] & w' & H); [discriminate|apply scenario_ready|].
  destruct (X3_summary_agrees_with_report scenario_files sample_world _ _ _ _ H)
    as [(Hall & _)|(c & _ & _ & Hm & Hs)].
  - exfalso.
    specialize (Hall "Articles of Association (AoA)" ltac:(in_list)).
    apply satisfied_spec in Hall. vm_compute in Hall. discriminate Hall.
  - exists summary, report, paths, w'. split; [exact H|].
    rewrite Hm, Hs. apply StrFacts.contains_spec.
    exists ("It appears you're trying to incorporate a company in ADGM. You have uploaded "
            +:+ Str.of_nat 2 +:+ " out of 7 required documents."
            +:+ newline +:+ newline
            +:+ "The missing document appears to be: "), ".".
    rewrite !StrFacts.app_assoc. reflexivity.
Defined.

(** ** Checklist and classifier together *)

Lemma contains_trans (a b l : string) :
  Str.contains a b = true → Str.contains b l = true → Str.contains a l = true.
Proof.
  rewrite !StrFacts.contains_spec. intros (u & v & ->) (x & y & ->).
  exists (x +:+ u), (v +:+ y). by rewrite !StrFacts.app_assoc.
Qed.

Lemma keyword_of_key (kw key doc_name : string) :
  Str.contains kw (simplified_key key) = true →
  Str.CaseInsensitiveSubstring (simplified_key key) doc_name →
  Str.contains kw (Str.lower doc_name) = true.
Proof.
  intros Hkw H. apply (contains_trans _ _ _ Hkw).
  by apply (StrFacts.contains_keyword _ _ (simplified_key_lower key)).
Qed.

(** X4. A name that satisfies a checklist category is classified at least
    as high in the table as that category: the key of Articles of
    Association forces the type Articles of Association; the key of Board
    Resolution Templates forces Articles of Association or Board
    Resolution; and the keys of the Memorandum, the UBO form and the
    Register exclude the type General Document.  The converse fails: a
    name can be classified Articles of Association without satisfying the
    category. *)
Theorem X4_checklist_match_bounds_classification (doc_name : string) :
  let t := doc_type (simulate_llm_analysis doc_name) in
  let matches c := Str.CaseInsensitiveSubstring (simplified_key c) doc_name in
  (matches "Articles of Association (AoA)" → t = "Articles of Association") ∧
  (matches "Board Resolution Templates" →
     t = "Articles of Association" ∨ t = "Board Resolution") ∧
  (matches "Memorandum of Association (MoA/MoU)"
   ∨ matches "UBO Declaration Form"
   ∨ matches "Register of Members and Directors" →
     t ≠ "General Document") ∧
  (∃ other,
     doc_type (simulate_llm_analysis other) = "Articles of Association" ∧
     ¬ Str.CaseInsensitiveSubstring
         (simplified_key "Articles of Association (AoA)") other).
Proof.
  intros t matches. subst t. unfold simulate_llm_analysis.
  split; [|split; [|split]].
  - intros H.
    by rewrite (keyword_of_key "articles" "Articles of Association (AoA)" _ eq_refl H).
  - intros H.
    rewrite (keyword_of_key "board" "Board Resolution Templates" _ eq_refl H),
            (keyword_of_key "resolution" "Board Resolution Templates" _ eq_refl H).
    destruct (Str.contains "articles" _ || Str.contains "aoa" _); [by left|by right].
  - intros [H|[H|H]].
    + rewrite (keyword_of_key "memo" "Memorandum of Association (MoA/MoU)" _ eq_refl H).
      destruct (Str.contains "articles" _ || Str.contains "aoa" _); [done|].
      by destruct (Str.contains "board" _ && Str.contains "resolution" _).
    + rewrite (keyword_of_key "ubo" "UBO Declaration Form" _ eq_refl H).
      destruct (Str.contains "articles" _ || Str.contains "aoa" _); [done|].
      destruct (Str.contains "board" _ && Str.contains "resolution" _); [done|].
      by destruct (Str.contains "memo" _ || Str.contains "moa" _).
    + rewrite (keyword_of_key "register" "Register of Members and Directors" _ eq_refl H).
      destruct (Str.contains "articles" _ || Str.contains "aoa" _); [done|].
      destruct (Str.contains "board" _ && Str.contains "resolution" _); [done|].
      destruct (Str.contains "memo" _ || Str.contains "moa" _); [done|].
      by destruct (Str.contains "ubo" _).
  - exists "AoA_Acme.docx". split; [reflexivity|].
    intros H.
    apply (StrFacts.contains_keyword _ _
             (simplified_key_lower "Articles of Association (AoA)")) in H.
    vm_compute in H. discriminate H.
Qed.

Lemma X4_checklist_match_bounds_classification_witness :
  doc_type (simulate_llm_analysis "Articles of Association - Acme.docx")
  = "Articles of Association" ∧
  doc_type (simulate_llm_analysis "Signed UBO declaration FORM.docx")
  ≠ "General Document".
Proof.
  split.
  - apply (proj1 (X4_checklist_match_bounds_classification
                    "Articles of Association - Acme.docx")).
    exists "Articles of Association". split; [by exists "", " - Acme.docx"|reflexivity].
  - apply (proj1 (proj2 (proj2 (X4_checklist_match_bounds_classification
                                  "Signed UBO declaration FORM.docx")))).
    right. left. exists "UBO declaration FORM".
    split; [by exists "Signed ", ".docx"|reflexivity].
Defined.

(** ** The issues of the report *)

Lemma issues_of_file_length (f : file_handle) :
  length (issues_of_file f)
  = if silent_type (doc_type (simulate_llm_analysis (doc_name_of f))) then 0 else 1.
Proof.
  unfold issues_of_file. rewrite length_map.
  destruct (analysis_issue_cases (doc_name_of f))
    as [[-> ->]|[-> (i & _ & ->)]]; reflexivity.
Qed.

Lemma issues_of_file_names (f : file_handle) :
  map document_name (issues_of_file f)
  = if silent_type (doc_type (simulate_llm_analysis (doc_name_of f))) then []
    else [Path.basename (name f)].
Proof.
  unfold issues_of_file.
  destruct (analysis_issue_cases (doc_name_of f))
    as [[-> ->]|[-> (i & _ & ->)]]; reflexivity.
Qed.

(** X5. The report of a run that returns holds one issue for each file
    whose type is not one of the three silent types (Memorandum, UBO form,
    Register) and none for the others, hence at most one per file; the
    field "document" of the issues lists the base names of those files in
    upload order; and each issue carries the four fields of one of the
    three canned issues, whose severities are High, Medium and Low. *)
Theorem X5_report_issues (files : list file_handle) (w : world) :
  ∀ summary report paths w',
    analyze_documents files w = (Returns (summary, report, paths), w') →
    let speaking :=
      List.filter
        (fun f => negb (silent_type
                          (doc_type (simulate_llm_analysis (Path.basename (name f))))))
        files in
    length (issues_found report) = length speaking ∧
    length (issues_found report) ≤ length files ∧
    map document_name (issues_found report)
    = map (fun f => Path.basename (name f)) speaking ∧
    ∀ ri, ri ∈ issues_found report →
          r_severity ri ∈ ["High"; "Medium"; "Low"] ∧
          ∃ f i, f ∈ files ∧ i ∈ canned_issues ∧
                 ri = {| document_name := Path.basename (name f);
                         r_section := section i;
                         r_issue := issue i;
                         r_severity := severity i;
                         r_suggestion := suggestion i |}.
Proof.
  intros summary report paths w' H speaking.
  apply analyze_documents_returns in H as (_ & _ & _ & -> & _).
  unfold build_report. cbn [issues_found]. rewrite state_of_issues.
  cbn [initial_state all_issues app]. subst speaking.
  assert (map document_name (flat_map issues_of_file files)
          = map (fun f => Path.basename (name f))
              (List.filter
                 (fun f => negb (silent_type
                                   (doc_type (simulate_llm_analysis
                                                (Path.basename (name f))))))
                 files)) as Hnames.
  { induction files as [|f files IH]; [done|].
    cbn [flat_map List.filter]. rewrite map_app, issues_of_file_names, IH.
    unfold doc_name_of. by destruct (silent_type _). }
  assert (length (flat_map issues_of_file files)
          = length (List.filter
                      (fun f => negb (silent_type
                                        (doc_type (simulate_llm_analysis
                                                     (Path.basename (name f))))))
                      files)) as Hlen.
  { rewrite <-(length_map document_name), Hnames. by rewrite length_map. }
  split; [exact Hlen|]. split; [|split; [exact Hnames|]].
  - rewrite Hlen. apply filter_length_le.
  - intros ri Hri. apply list_elem_of_In, in_flat_map in Hri as (f & Hf & Hri).
    apply list_elem_of_In in Hf, Hri. unfold issues_of_file in Hri.
    apply list_elem_of_fmap in Hri as (i & -> & Hi).
    assert (i ∈ canned_issues) as Hcanned.
    { destruct (analysis_issue_cases (doc_name_of f))
        as [[_ E]|[_ (i' & Hi' & E)]]; rewrite E in Hi.
      - by apply elem_of_nil in Hi.
      - by apply list_elem_of_singleton in Hi as ->. }
    split.
    + unfold canned_issues in Hcanned. cbn [tag_issue r_severity].
      repeat (apply elem_of_cons in Hcanned as [->|Hcanned]; [in_list|]).
      by apply elem_of_nil in Hcanned.
    + by exists f, i.
Qed.

Lemma X5_report_issues_witness :
  ∃ summary report paths w',
    analyze_documents scenario_files sample_world
    = (Returns (summary, report, paths), w') ∧
    length (issues_found report) = 2 ∧
    map document_name (issues_found report)
    = ["AoA_Acme.docx"; "Board_Resolution_Acme.docx"].
Proof.
  destruct (ready_returns scenario_files sample_world)
    as ([[summary report] paths] & w' & H); [discriminate|apply scenario_ready|].
  destruct (X5_report_issues scenario_files sample_world _ _ _ _ H)
    as (Hlen & _ & Hnames & _).
  exists summary, report, paths, w'. split; [exact H|].
  rewrite Hlen, Hnames. split; reflexivity.
Defined.

(** ** What a reviewed document adds *)

(** X6. When the input opens and the iteration goes through, the reviewed
    document is either the input itself, block for block (for the three
    silent types), or the input followed by exactly five blocks: the
    section break, the heading, and the comment, suggestion and empty
    paragraph of one canned issue.  The iteration goes through when the
    output path can be written and, for the other types, the input has the
    two styles of the comments. *)
Theorem X6_copy_or_five_blocks
    (total i : nat) (f : file_handle) (st : loop_state) (w : world) (d : document) :
  open_document w (name f) = Some d →
  let t := doc_type (simulate_llm_analysis (Path.basename (name f))) in
  let out := resolve w ("reviewed_docs/reviewed_" +:+ Path.basename (name f)) in
  (∀ st' w',
     process_file total i f st w = (Returns st', w') →
     (silent_type t = true → fs w' !! out = Some (Docx d)) ∧
     (silent_type t = false →
        ∃ c, c ∈ canned_issues ∧
             fs w' !! out
             = Some (Docx {| body :=
                               body d
                               ++ [ SectionBreak;
                                    Paragraph "--- AI Analysis & Comments ---"
                                      (Some "Heading 2");
                                    Paragraph (comment_text c) (Some "Intense Quote");
                                    Paragraph (suggestion_text c) None;
                                    Paragraph "" None ];
                             styles := styles d |}))) ∧
  (silent_type t = true ∨ comment_styles d →
   save_ready w f →
   ∃ st' w', process_file total i f st w = (Returns st', w')).
Proof.
  intros Hd t out. split.
  - intros st' w' H. apply process_file_returns in H as (_ & -> & _).
    assert (fs (next_world total i w f) !! out = Some (Docx (reviewed_document w f)))
      as -> by (cbn [next_world with_fs fs]; apply lookup_insert_eq).
    unfold reviewed_document, base_document. rewrite Hd. subst t.
    destruct (analysis_issue_cases (doc_name_of f))
      as [[Hs ->]|[Hs (c & Hc & ->)]]; unfold doc_name_of in Hs; rewrite Hs.
    + split; [|done]. intros _. cbn [comment_section]. by rewrite extend_nil.
    + split; [done|]. intros _. by exists c.
  - intros Hstyles Hsave. eexists _, _. apply process_file_ready; [|done].
    unfold document_ready. rewrite Hd. subst t.
    destruct Hstyles as [Hs|Hstyles]; [|by right].
    destruct (analysis_issue_cases (doc_name_of f))
      as [[_ ->]|[Hs' _]]; [by left|].
    unfold doc_name_of in Hs'. congruence.
Qed.

Lemma X6_copy_or_five_blocks_witness :
  ∃ st' w' c,
    process_file 2 0 (mkFile "/uploads/1/AoA_Acme.docx") initial_state
      (entered sample_world) = (Returns st', w') ∧
    c ∈ canned_issues ∧
    fs w' !! "/app/reviewed_docs/reviewed_AoA_Acme.docx"
    = Some (Docx {| body :=
                      body sample_document
                      ++ [ SectionBreak;
                           Paragraph "--- AI Analysis & Comments ---" (Some "Heading 2");
                           Paragraph (comment_text c) (Some "Intense Quote");
                           Paragraph (suggestion_text c) None;
                           Paragraph "" None ];
                    styles := word_styles |}).
Proof.
  destruct (X6_copy_or_five_blocks 2 0 (mkFile "/uploads/1/AoA_Acme.docx")
              initial_state (entered sample_world) sample_document)
    as [Hsaved Hgoes]; [by vm_compute|].
  destruct Hgoes as (st' & w' & H).
  - right. by split.
  - split; [reflexivity|]. split; [|split; [|reflexivity]].
    + apply entered_dirs. right. by split.
    + intros [Hin|[_ Heq]]%entered_dirs.
      * by apply elem_of_empty in Hin.
      * discriminate Heq.
  - destruct (Hsaved st' w' H) as [_ Hfive].
    destruct Hfive as (c & Hc & Hout); [reflexivity|].
    exists st', w', c. split; [exact H|]. split; [exact Hc|exact Hout].
Defined.

(** ** Reviewed files uploaded again *)

Lemma lower_reviewed_prefix (x : string) :
  Str.lower ("reviewed_" +:+ x) = "reviewed_" +:+ Str.lower x.
Proof. reflexivity. Qed.

Lemma simulate_reviewed_prefix (x : string) :
  simulate_llm_analysis ("reviewed_" +:+ x) = simulate_llm_analysis x.
Proof. unfold simulate_llm_analysis. rewrite lower_reviewed_prefix. reflexivity. Qed.

(** X7. The marker put before the name of a reviewed file changes neither
    the classification nor the checklist: a name and the same name after
    "reviewed_" get the same analysis and match the same categories. *)
Theorem X7_marker_is_neutral (x : string) :
  simulate_llm_analysis ("reviewed_" +:+ x) = simulate_llm_analysis x ∧
  (∀ c, c ∈ required_categories →
        key_matches ("reviewed_" +:+ x) c = key_matches x c) ∧
  update_checklist ("reviewed_" +:+ x) initial_checklist
  = update_checklist x initial_checklist.
Proof.
  split; [apply simulate_reviewed_prefix|].
  assert (∀ c, c ∈ required_categories →
               key_matches ("reviewed_" +:+ x) c = key_matches x c) as Hkeys.
  { intros c Hc. unfold key_matches. rewrite lower_reviewed_prefix.
    unfold required_categories in Hc.
    repeat (apply elem_of_cons in Hc as [->|Hc]; [reflexivity|]).
    by apply elem_of_nil in Hc. }
  split; [exact Hkeys|].
  assert (NoDup (dict_keys initial_checklist)) as Hnd
    by apply required_categories_NoDup.
  rewrite !update_checklist_mark by done.
  apply mark_ext. intros c Hc. apply Hkeys. by rewrite <-initial_checklist_keys.
Qed.

(** X8. A reviewed document of an earlier run that is uploaded again and
    opens gets the comment section of its original name a second time, and
    is saved under the name with the marker twice.  The iteration goes
    through when the document has the styles of the comments (or its
    original name has no issue) and the output path can be written. *)
Theorem X8_reviewed_again
    (total i : nat) (g : file_handle) (st : loop_state) (w : world)
    (x : string) (doc : document) (d : list block) :
  Path.basename (name g) = "reviewed_" +:+ x →
  open_document w (name g) = Some doc →
  body doc = d ++ comment_section (issues (simulate_llm_analysis x)) →
  (∀ st' w',
     process_file total i g st w = (Returns st', w') →
     fs w' !! resolve w ("reviewed_docs/reviewed_reviewed_" +:+ x)
     = Some (Docx {| body := d ++ comment_section (issues (simulate_llm_analysis x))
                              ++ comment_section (issues (simulate_llm_analysis x));
                     styles := styles doc |})) ∧
  (issues (simulate_llm_analysis x) = [] ∨ comment_styles doc →
   save_ready w g →
   ∃ st' w', process_file total i g st w = (Returns st', w')).
Proof.
  intros Hname Hopen Hbody. split.
  - intros st' w' H. apply process_file_returns in H as (_ & -> & _).
    cbn [next_world with_fs fs]. unfold target, doc_name_of. rewrite Hname.
    change (reviewed_path ("reviewed_" +:+ x))
      with ("reviewed_docs/reviewed_reviewed_" +:+ x).
    rewrite lookup_insert_eq. do 2 f_equal.
    unfold reviewed_document, base_document, extend, doc_name_of.
    rewrite Hopen, Hname, simulate_reviewed_prefix, Hbody, <-app_assoc. done.
  - intros Hstyles Hsave. eexists _, _. apply process_file_ready; [|done].
    unfold document_ready, doc_name_of.
    by rewrite Hopen, Hname, simulate_reviewed_prefix.
Qed.

Lemma X8_reviewed_again_witness :
  ∃ st' w',
    process_file 1 0 reviewed_again_file initial_state reviewed_again_world
    = (Returns st', w') ∧
    fs w' !! "/app/reviewed_docs/reviewed_reviewed_AoA_Acme.docx"
    = Some (Docx {| body := body sample_document
                            ++ comment_section [jurisdiction_issue]
                            ++ comment_section [jurisdiction_issue];
                    styles := word_styles |}).
Proof.
  destruct (X8_reviewed_again 1 0 reviewed_again_file initial_state
              reviewed_again_world "AoA_Acme.docx"
              (extend sample_document (comment_section [jurisdiction_issue]))
              (body sample_document))
    as [Hsaved Hgoes]; [reflexivity|by vm_compute|reflexivity|].
  destruct Hgoes as (st' & w' & H).
  - right. by split.
  - split; [reflexivity|]. split; [|split; [|reflexivity]].
    + change ("/app/reviewed_docs" ∈ ({[ "/app/reviewed_docs" ]} : gset string)).
      by apply elem_of_singleton.
    + change ("/app/reviewed_docs/reviewed_reviewed_AoA_Acme.docx"
              ∉ ({[ "/app/reviewed_docs" ]} : gset string)).
      intros Hin. apply elem_of_singleton in Hin. discriminate Hin.
  - exists st', w'. split; [exact H|exact (Hsaved st' w' H)].
Defined.

(** ** Where the reviewed documents go *)

Lemma basename_without_sep (p : string) :
  Path.has_sep p = false → Path.basename p = p.
Proof.
  destruct p as [|c r]; [done|]. cbn.
  intros [Hc Hr]%orb_false_iff. by rewrite Hr, Hc.
Qed.

(** X9. Whatever directories the path of an input goes through, its
    reviewed document is written directly inside the output directory: the
    output path is "reviewed_docs/" followed by one component without
    separator, and that component, the base name of the output, is the
    marker followed by the base name of the input.  Taking the base name
    twice changes nothing. *)
Theorem X9_output_is_a_direct_child (f : file_handle) :
  let out := Path.join output_dir ("reviewed_" +:+ Path.basename (name f)) in
  let component := "reviewed_" +:+ Path.basename (name f) in
  out = "reviewed_docs/" +:+ component ∧
  Path.has_sep component = false ∧
  Path.basename out = component ∧
  Str.startswith "/" out = false ∧
  Path.basename (Path.basename (name f)) = Path.basename (name f).
Proof.
  intros out component.
  assert (Path.has_sep component = false) as Hc.
  { unfold component. rewrite PathFacts.has_sep_app.
    by rewrite PathFacts.basename_no_sep. }
  split; [reflexivity|]. split; [exact Hc|]. split; [|split].
  - change out with ("reviewed_docs" +:+ String Path.sep component).
    by apply PathFacts.basename_after_sep.
  - reflexivity.
  - apply basename_without_sep, PathFacts.basename_no_sep.
Qed.

(** X10. The footprint of a run that returns on the store: the files that
    exist afterwards are those that existed before together with the files
    the returned output paths denote.  No file is removed, and the store
    grows by at most one file per input. *)
Theorem X10_store_footprint (files : list file_handle) (w : world) :
  ∀ summary report paths w',
    analyze_documents files w = (Returns (summary, report, paths), w') →
    dom (fs w') = dom (fs w) ∪ list_to_set (map (resolve w) paths) ∧
    (∀ id, is_Some (fs w !! id) → is_Some (fs w' !! id)) ∧
    size (fs w) ≤ size (fs w') ∧
    size (fs w') ≤ size (fs w) + length files.
Proof.
  intros summary report paths w' H.
  apply analyze_documents_returns in H as (_ & _ & _ & _ & -> & ->).
  cbn [with_progress_log fs].
  destruct (entered_static w) as (Hfs & Hres & _).
  assert (dom (fs (loop_world (length files) 0 files (entered w)))
          = dom (fs w)
            ∪ list_to_set
                (map (resolve w) (map (fun f => reviewed_path (doc_name_of f)) files)))
    as Hdom.
  { rewrite loop_world_dom, Hfs. do 2 f_equal. rewrite map_map.
    apply map_ext. intros f. unfold target. by rewrite Hres. }
  split; [exact Hdom|]. split; [|split].
  - intros id Hid. apply elem_of_dom. rewrite Hdom.
    apply elem_of_union. left. by apply elem_of_dom.
  - rewrite <-!size_dom, Hdom. apply subseteq_size, union_subseteq_l.
  - rewrite <-Hfs. apply loop_world_size.
Qed.

Lemma X10_store_footprint_witness :
  ∃ summary report paths w',
    analyze_documents scenario_files sample_world
    = (Returns (summary, report, paths), w') ∧
    is_Some (fs w' !! "/uploads/2/Board_Resolution_Acme.docx") ∧
    size (fs w') ≤ 4.
Proof.
  destruct (ready_returns scenario_files sample_world)
    as ([[summary report] paths] & w' & H); [discriminate|apply scenario_ready|].
  destruct (X10_store_footprint scenario_files sample_world _ _ _ _ H)
    as (_ & Hkeep & _ & Hsize).
  exists summary, report, paths, w'. split; [exact H|]. split.
  - apply Hkeep. exists NotDocx. by vm_compute.
  - etrans; [exact Hsize|]. by vm_compute.
Defined.

(** ** Names without spaces *)

Lemma has_char_contains (c : ascii) (k l : string) :
  Str.contains k l = true → has_char c k = true → has_char c l = true.
Proof.
  intros (a & b & ->)%StrFacts.contains_spec Hk.
  by rewrite !has_char_app, Hk, orb_true_r.
Qed.

Lemma lower_char_space (c : ascii) :
  Ascii.eqb (Str.lower_char c) " " = Ascii.eqb c " ".
Proof. by destruct c as [[] [] [] [] [] [] [] []]. Qed.

Lemma has_space_lower (s : string) :
  has_char " " (Str.lower s) = has_char " " s.
Proof.
  induction s as [|c s IH]; [done|]. cbn. by rewrite lower_char_space, IH.
Qed.

Lemma key_needs_space (doc_name c : string) :
  c ∈ required_categories →
  has_char " " doc_name = false →
  Str.contains (simplified_key c) (Str.lower doc_name) = false.
Proof.
  intros Hc Hsp. apply not_true_iff_false. intros H.
  apply (has_char_contains " ") in H.
  - rewrite has_space_lower in H. congruence.
  - unfold required_categories in Hc.
    repeat (apply elem_of_cons in Hc as [->|Hc]; [reflexivity|]).
    by apply elem_of_nil in Hc.
Qed.

(** X11. Every simplified key contains a space, so file names without a
    space satisfy no category: when a batch of such names returns, the
    checklist has ended as it started, with the seven flags false, and the
    report names "Articles of Association (AoA)" as the missing document
    whatever the files are. *)
Theorem X11_names_without_spaces (files : list file_handle) (w : world) :
  (∀ f, f ∈ files → has_char " " (Path.basename (name f)) = false) →
  ∀ summary report paths w',
    analyze_documents files w = (Returns (summary, report, paths), w') →
    (∃ st w1,
       state_after (length files) files w = (Returns st, w1) ∧
       incorporation_checklist st = initial_checklist ∧
       ∀ category key, (category, key) ∈ simplified_keys →
                       dict_get category (incorporation_checklist st) = Some false) ∧
    missing_document report = "Articles of Association (AoA)" ∧
    Str.Substring
      "The missing document appears to be: 'Articles of Association (AoA)'."
      summary.
Proof.
  intros Hsp summary report paths w' H.
  apply analyze_documents_returns in H as (_ & Hloop & -> & -> & _).
  assert (incorporation_checklist (state_of files initial_state) = initial_checklist)
    as Hfinal.
  { rewrite state_of_initial. cbn [incorporation_checklist].
    apply mark_none. intros c Hc.
    rewrite initial_checklist_keys in Hc. unfold satisfied.
    apply not_true_iff_false. intros (nm & Hnm & Hk)%existsb_exists.
    apply in_map_iff in Hnm as (f & <- & Hf).
    rewrite key_needs_space in Hk; [done|done|].
    apply Hsp. by apply list_elem_of_In. }
  split; [|split].
  - eexists _, _. split; [exact Hloop|]. split; [exact Hfinal|].
    intros category key Hin. rewrite Hfinal. unfold simplified_keys in Hin.
    repeat (apply elem_of_cons in Hin as [[= -> ->]|Hin]; [reflexivity|]).
    by apply elem_of_nil in Hin.
  - unfold build_report. cbn [missing_document]. by rewrite Hfinal.
  - rewrite Hfinal.
    exists ("It appears you're trying to incorporate a company in ADGM. You have uploaded "
            +:+ Str.of_nat (length files) +:+ " out of 7 required documents."
            +:+ newline +:+ newline), "".
    unfold checklist_summary. cbn [missing_docs initial_checklist List.filter map
                                   negb snd fst length].
    rewrite !StrFacts.app_assoc. reflexivity.
Qed.

Lemma X11_names_without_spaces_witness :
  ∃ summary report paths w',
    analyze_documents scenario_files sample_world
    = (Returns (summary, report, paths), w') ∧
    missing_document report = "Articles of Association (AoA)".
Proof.
  destruct (ready_returns scenario_files sample_world)
    as ([[summary report] paths] & w' & H); [discriminate|apply scenario_ready|].
  assert (∀ f, f ∈ scenario_files → has_char " " (Path.basename (name f)) = false)
    as Hnames.
  { intros f Hf. unfold scenario_files in Hf.
    repeat (apply elem_of_cons in Hf as [->|Hf]; [reflexivity|]).
    by apply elem_of_nil in Hf. }
  destruct (X11_names_without_spaces scenario_files sample_world Hnames _ _ _ _ H)
    as (_ & Hm & _).
  exists summary, report, paths, w'. split; [exact H|exact Hm].
Defined.

(** ** Exceptions that leave the loop *)

(** X12. The comments are added outside the [try]: when a file opens, its
    analysis has an issue, and the document lacks the style "Heading 2" or
    the style "Intense Quote", the style lookup raises KeyError and the
    operation ends there: nothing is returned, the file gets no reviewed
    document, the files after it are not processed, and the store is as the
    files before it left it. *)
Theorem X12_missing_style_aborts
    (pre post : list file_handle) (f : file_handle)
    (st1 : loop_state) (w w1 : world) (d : document) :
  let files := pre ++ f :: post in
  state_after (length files) pre w = (Returns st1, w1) →
  open_document w1 (name f) = Some d →
  silent_type (doc_type (simulate_llm_analysis (Path.basename (name f)))) = false →
  styles d !! "Heading 2" = None
  ∨ (styles d !! "Heading 2" = Some ParagraphStyle ∧ styles d !! "Intense Quote" = None) →
  analyze_documents files w
  = (Raises KeyError,
     with_progress_log
       (progress_log w1
        ++ [Progress (length pre) (length files)
              ("Analyzing " +:+ Path.basename (name f) +:+ "...")])
       w1) ∧
  fs (snd (analyze_documents files w)) = fs w1.
Proof.
  intros files Hpre Hopen Hsilent Hstyles.
  assert (analyze_documents files w
          = (Raises KeyError,
             with_progress_log
               (progress_log w1 ++ [analyzing_event (length files) (length pre) f])
               w1)) as Hrun.
  { apply (analyze_documents_raises pre post f st1 w w1); [exact Hpre|].
    rewrite process_file_unfold, base_document_outcome, Hopen.
    destruct (analysis_issue_cases (doc_name_of f))
      as [[Hs _]|[_ (c & _ & ->)]].
    - unfold doc_name_of in Hs. congruence.
    - unfold comments_outcome.
      by destruct Hstyles as [->|[-> ->]]. }
  split; [exact Hrun|]. by rewrite Hrun.
Qed.

Lemma X12_missing_style_aborts_witness :
  fst (analyze_documents scenario_files plain_world) = Raises KeyError ∧
  fs (snd (analyze_documents scenario_files plain_world)) = fs plain_world.
Proof.
  destruct (X12_missing_style_aborts [] [mkFile "/uploads/2/Board_Resolution_Acme.docx"]
              (mkFile "/uploads/1/AoA_Acme.docx") initial_state plain_world
              (entered plain_world) plain_document)
    as (Hrun & Hfs); [reflexivity|by vm_compute|reflexivity|by left|].
  split.
  - change scenario_files
      with ([] ++ mkFile "/uploads/1/AoA_Acme.docx"
               :: [mkFile "/uploads/2/Board_Resolution_Acme.docx"]).
    by rewrite Hrun.
  - exact Hfs.
Defined.



(** ** Files that do not open *)

(** X14. What a run returns does not depend on the documents: two runs of
    one batch that both return, in whatever worlds, return the same
    summary, report and paths, so that a file that fails to open leaves no
    trace in the report.  Such a file, when its base name is XML text, the
    default template has the styles of the comments (or the analysis has no
    issue) and the output path can be written, is recovered: the iteration
    goes to the same loop state as for a file that opens, and saves the two
    placeholder paragraphs followed by the comment section. *)
Theorem X14_parse_failure_recovered (files : list file_handle) :
  (∀ w w2 result result2 w' w2',
     analyze_documents files w = (Returns result, w') →
     analyze_documents files w2 = (Returns result2, w2') →
     result2 = result) ∧
  (∀ total i f st w,
     open_document w (name f) = None →
     xml_text (Path.basename (name f)) = true →
     issues (simulate_llm_analysis (Path.basename (name f))) = []
     ∨ comment_styles (blank_document w) →
     save_ready w f →
     ∃ w',
       process_file total i f st w
       = (Returns
            {| incorporation_checklist :=
                 update_checklist (Path.basename (name f)) (incorporation_checklist st);
               all_issues :=
                 all_issues st
                 ++ map (tag_issue (Path.basename (name f)))
                      (issues (simulate_llm_analysis (Path.basename (name f))));
               reviewed_file_paths :=
                 reviewed_file_paths st
                 ++ ["reviewed_docs/reviewed_" +:+ Path.basename (name f)] |},
          w') ∧
       fs w' !! resolve w ("reviewed_docs/reviewed_" +:+ Path.basename (name f))
       = Some (Docx {| body :=
                         [ Paragraph ("Original content of " +:+ Path.basename (name f)
                                      +:+ " would be here.") None;
                           Paragraph "(Could not fully parse original, but analysis is proceeding based on filename)" None ]
                         ++ comment_section
                              (issues (simulate_llm_analysis (Path.basename (name f))));
                       styles := template_styles w |})).
Proof.
  split.
  - intros w w2 [[summary report] paths] [[summary2 report2] paths2] w' w2' H H2.
    apply analyze_documents_returns in H as (_ & _ & -> & -> & -> & _).
    apply analyze_documents_returns in H2 as (_ & _ & -> & -> & -> & _).
    reflexivity.
  - intros total i f st w Hopen Hxml Hstyles Hsave.
    exists (next_world total i w f). split.
    + apply process_file_ready; [|done].
      unfold document_ready. rewrite Hopen. by split.
    + cbn [next_world with_fs fs].
      change (resolve w ("reviewed_docs/reviewed_" +:+ Path.basename (name f)))
        with (target w (doc_name_of f)).
      rewrite lookup_insert_eq.
      unfold reviewed_document, base_document. by rewrite Hopen.
Qed.

Lemma X14_parse_failure_recovered_witness :
  ∃ result w' w2',
    analyze_documents scenario_files sample_world = (Returns result, w') ∧
    analyze_documents scenario_files empty_world = (Returns result, w2') ∧
    open_document (entered empty_world) "/uploads/1/AoA_Acme.docx" = None.
Proof.
  destruct (ready_returns scenario_files sample_world) as (result & w' & H);
    [discriminate|apply scenario_ready|].
  destruct (ready_returns scenario_files empty_world) as (result2 & w2' & H2);
    [discriminate| |].
  - apply empty_world_ready. intros f Hf. unfold scenario_files in Hf.
    repeat (apply elem_of_cons in Hf as [->|Hf]; [reflexivity|]).
    by apply elem_of_nil in Hf.
  - destruct (X14_parse_failure_recovered scenario_files) as [Hsame _].
    rewrite (Hsame _ _ _ _ _ _ H H2) in H2.
    exists result, w', w2'. split; [exact H|]. split; [exact H2|reflexivity].
Defined.
